(** * CruceGame: the IRC matchmaking layer

    A shallow embedding of the two revisions of the IRC client layer of
    CruceGame and the properties of its parser, handshake and room
    functions.

    - [Part000] embeds the later revision (it reads [errors.h], validates the
      nickname, batches the handshake and has [getNextMessage],
      [irc_getNames] and [irc_invite]).
    - [IrcC] embeds [src/irc/irc.c], the earlier revision, where
      [irc_toggleRoomStatus] only classifies the topic.

    C strings are [string] values (the bytes up to the terminating NUL),
    pointers into a buffer are [Z] offsets into it, [int] values are [Z].
    The capacity of the buffers the code allocates ([COMMAND_SIZE] is
    declared in [irc.h]) is not part of the model. *)

From Stdlib Require Import ZArith List String Ascii Bool Lia.
Import ListNotations.
Local Open Scope string_scope.
Local Open Scope Z_scope.

(** ** C library functions on strings *)

Definition CR : ascii := "013"%char.
Definition LF : ascii := "010"%char.
Definition CRLF : string := String CR (String LF EmptyString).

Definition strlen (s : string) : Z := Z.of_nat (String.length s).

(** [str + n]: the string that starts [n] bytes into [s]. *)
Fixpoint drop (n : nat) (s : string) : string :=
  match n, s with
  | O, _ => s
  | S _, EmptyString => EmptyString
  | S n', String _ s' => drop n' s'
  end.

(** [strchr s c]: offset of the first [c] in [s], [None] for NULL. *)
Fixpoint strchr (s : string) (c : ascii) : option Z :=
  match s with
  | EmptyString => None
  | String a s' =>
      if Ascii.eqb a c then Some 0
      else match strchr s' c with
           | Some i => Some (i + 1)
           | None => None
           end
  end.

(** [strchr (str + off) c], as an offset into [str]. *)
Definition strchr_at (str : string) (off : Z) (c : ascii) : option Z :=
  match strchr (drop (Z.to_nat off) str) c with
  | Some i => Some (off + i)
  | None => None
  end.

(** [strstr haystack needle]: offset of the first occurrence, [None] for
    NULL.  An empty needle is found at offset 0. *)
Fixpoint strstr (haystack needle : string) : option Z :=
  if String.prefix needle haystack then Some 0
  else match haystack with
       | EmptyString => None
       | String _ h' =>
           match strstr h' needle with
           | Some i => Some (i + 1)
           | None => None
           end
       end.

(** [strncpy dst (str + off) n; dst[n] = 0]: at most [n] bytes, fewer when
    the source ends first. *)
Definition strncpy_at (str : string) (off n : Z) : string :=
  String.substring (Z.to_nat off) (Z.to_nat n) str.

(** Conversion of a [size_t] to [int] (32 bits, two's complement). *)
Definition INT_MAX : Z := 2147483647.
Definition int_of_size_t (z : Z) : Z :=
  (z + 2147483648) mod 4294967296 - 2147483648.

(** ** [sprintf] with ["%03d"] *)

Definition digit (d : Z) : ascii := ascii_of_nat (48 + Z.to_nat d).

Fixpoint decimal (fuel : nat) (z : Z) (acc : string) : string :=
  match fuel with
  | O => acc
  | S fuel' =>
      let acc' := String (digit (z mod 10)) acc in
      if z / 10 =? 0 then acc' else decimal fuel' (z / 10) acc'
  end.

Fixpoint zeros (n : nat) : string :=
  match n with
  | O => EmptyString
  | S n' => String "0"%char (zeros n')
  end.

Definition sprintf_03d (z : Z) : string :=
  let digits := decimal 10 (Z.abs z) EmptyString in
  if z <? 0
  then String "-"%char (zeros (2 - String.length digits) ++ digits)
  else zeros (3 - String.length digits) ++ digits.

(** ** Constants of [irc.h], [errors.h] and [network.h] *)

(** The three headers are not among the sources, so the constants they
    declare are parameters of the development. *)
Record Config := {
  NO_ERROR : Z;
  PARAMETER_OUT_OF_RANGE : Z;
  LEAVE_ROOM_ERROR : Z;
  TOGGLE_ROOM_STATUS_ERROR : Z;
  IRC_SERVER : string;
  IRC_PORT : Z;
  LOBBY_CHANNEL : string;
  ROOM_PREFIX : string;
  MAX_MESSAGE_SIZE : Z
}.

(** Modelled from the spec: [ROOM_FORMAT] is declared in [irc.h], which is
    missing; the channel of a room is the configured prefix followed by the
    room number zero-padded to three digits. *)
Definition sprintf_ROOM_FORMAT (cfg : Config) (roomNumber : Z) : string :=
  ROOM_PREFIX cfg ++ sprintf_03d roomNumber.

(** ** The transport and the state of the client *)

(** One entry per call of a function of [network.h], oldest first. *)
Inductive Event : Type :=
| EvConnect (server : string) (port : Z)
| EvSend (buf : string) (len : Z)
| EvRead (maxLen : Z)
| EvReadLine (maxLen : Z)
| EvDisconnect.

(** The bytes a send puts on the wire: the first [len] bytes of [buf]. *)
Definition payload (e : Event) : option string :=
  match e with
  | EvSend buf len => Some (String.substring 0 (Z.to_nat len) buf)
  | _ => None
  end.

(** The server and the network: what each call returns, as a function of
    everything that happened on the connection up to and including the
    call. *)
Record Transport := {
  connect_ret : list Event -> Z;
  send_ret : list Event -> Z;
  read_ret : list Event -> Z * string;
  readLine_ret : list Event -> string;
  disconnect_ret : list Event -> Z
}.

(** [currentRoom] is the global of the source; [trace] records the calls
    made so far. *)
Record State := {
  currentRoom : Z;
  trace : list Event
}.

Definition initial_state : State := {| currentRoom := -1; trace := [] |}.

Definition M (A : Type) : Type := State -> A * State.

Definition ret {A : Type} (a : A) : M A := fun s => (a, s).

Definition bind {A B : Type} (m : M A) (k : A -> M B) : M B :=
  fun s => let (a, s') := m s in k a s'.

Notation "x <- m ;; k" := (bind m (fun x => k))
  (at level 61, m at next level, right associativity).

Definition get_currentRoom : M Z := fun s => (currentRoom s, s).

Definition set_currentRoom (room : Z) : M unit :=
  fun s => (tt, {| currentRoom := room; trace := trace s |}).

Definition log (e : Event) (s : State) : State :=
  {| currentRoom := currentRoom s; trace := (trace s ++ [e])%list |}.

Section Network.
Variable net : Transport.

Definition network_connect (server : string) (port : Z) : M Z :=
  fun s => let s' := log (EvConnect server port) s in
           (connect_ret net (trace s'), s').

Definition network_send (buf : string) (len : Z) : M Z :=
  fun s => let s' := log (EvSend buf len) s in
           (send_ret net (trace s'), s').

(** Returns the return code and the C string left in the buffer. *)
Definition network_read (maxLen : Z) : M (Z * string) :=
  fun s => let s' := log (EvRead maxLen) s in
           (read_ret net (trace s'), s').

(** The source ignores the return code; the result is the buffer. *)
Definition network_readLine (maxLen : Z) : M string :=
  fun s => let s' := log (EvReadLine maxLen) s in
           (readLine_ret net (trace s'), s').

Definition network_disconnect : M Z :=
  fun s => let s' := log EvDisconnect s in
           (disconnect_ret net (trace s'), s').
End Network.

(** What a C function call produces: a value, or undefined behaviour (a
    NULL or indeterminate pointer is used, or a negative length reaches
    [strncpy]). *)
Inductive Outcome (A : Type) : Type :=
| Normal (a : A)
| Undefined.
Arguments Normal {A} a.
Arguments Undefined {A}.

(** ** The later revision *)

Module Part000.

Record IrcMessage := {
  prefix : string;
  command : string;
  trailing : string
}.

Section Irc.
Variable cfg : Config.
Variable net : Transport.

(** The body of [getNextMessage] after the line has been read into [str].
    [prefixEnd] is [None] while the local has not been assigned. *)
Definition parseMessage (str : string) : Outcome IrcMessage :=
  let prefix_locals : Outcome (option Z * Z) :=
    match str with
    | String ":" _ =>
        match strchr str " " with
        | Some space =>
            let prefixEnd := space - 1 in
            Normal (Some prefixEnd, prefixEnd - 0 - 1)
        | None => Undefined
        end
    | _ => Normal (None, 0)
    end in
  match prefix_locals with
  | Undefined => Undefined
  | Normal (None, _) => Undefined
  | Normal (Some prefixEnd, prefixLen) =>
      match strchr_at str (prefixEnd + 2) " " with
      | None => Undefined
      | Some space =>
          let trailingStart := space + 1 in
          let trailingLen :=
            int_of_size_t (strlen (drop (Z.to_nat trailingStart) str) - 1) in
          let commandStart := prefixEnd + 2 in
          let commandEnd := trailingStart - 2 in
          let commandLen := commandEnd - commandStart + 1 in
          if (prefixLen <? 0) || (commandLen <? 0) || (trailingLen <? 0)
          then Undefined
          else Normal {| prefix := strncpy_at str 1 prefixLen;
                         command := strncpy_at str commandStart commandLen;
                         trailing := strncpy_at str trailingStart trailingLen |}
      end
  end.

Definition getNextMessage : M (Outcome IrcMessage) :=
  str <- network_readLine net (MAX_MESSAGE_SIZE cfg) ;;
  ret (parseMessage str).

Definition irc_connect (name : string) : M Z :=
  let nameSize := int_of_size_t (strlen name) in
  if (nameSize =? 0) || (nameSize >? 9) then ret (PARAMETER_OUT_OF_RANGE cfg)
  else
    connectRet <- network_connect net (IRC_SERVER cfg) (IRC_PORT cfg) ;;
    if negb (connectRet =? NO_ERROR cfg) then ret connectRet
    else
      let nickCommand := "NICK " ++ name ++ CRLF in
      let userCommand := "USER " ++ name ++ " 8 * :" ++ name ++ CRLF in
      let joinCommand := "JOIN " ++ LOBBY_CHANNEL cfg ++ CRLF in
      let commandSequenceLength :=
        int_of_size_t (8 + strlen nickCommand + strlen userCommand
                         + strlen joinCommand) in
      let commandSequence :=
        "PASS *" ++ CRLF ++ nickCommand ++ userCommand ++ joinCommand in
      sendRet <- network_send net commandSequence commandSequenceLength ;;
      if negb (sendRet =? NO_ERROR cfg) then ret sendRet
      else ret (NO_ERROR cfg).

Definition irc_joinRoom (roomNumber : Z) : M Z :=
  if (roomNumber <? 0) || (roomNumber >? 999)
  then ret (PARAMETER_OUT_OF_RANGE cfg)
  else
    let roomName := sprintf_ROOM_FORMAT cfg roomNumber in
    let joinCommand := "JOIN " ++ roomName ++ CRLF in
    sendRet <- network_send net joinCommand (strlen joinCommand) ;;
    if negb (sendRet =? NO_ERROR cfg) then ret sendRet
    else
      _ <- set_currentRoom roomNumber ;;
      ret (NO_ERROR cfg).

Definition irc_leaveRoom : M Z :=
  room <- get_currentRoom ;;
  if room <? 0 then ret (LEAVE_ROOM_ERROR cfg)
  else
    let roomName := sprintf_ROOM_FORMAT cfg room in
    let partCommand := "PART " ++ roomName ++ CRLF in
    sendRet <- network_send net partCommand (strlen partCommand) ;;
    if negb (sendRet =? NO_ERROR cfg) then ret sendRet
    else
      _ <- set_currentRoom (-1) ;;
      ret (NO_ERROR cfg).

Definition irc_toggleRoomStatus (roomNumber : Z) : M Z :=
  if (roomNumber <? 0) || (roomNumber >? 999)
  then ret (PARAMETER_OUT_OF_RANGE cfg)
  else
    let roomName := sprintf_ROOM_FORMAT cfg roomNumber in
    let fetchTopicCommand := "TOPIC " ++ roomName ++ CRLF in
    sendRet <- network_send net fetchTopicCommand (strlen fetchTopicCommand) ;;
    if negb (sendRet =? NO_ERROR cfg) then ret sendRet
    else
      rd <- network_read net 512 ;;
      let (readRet, recvBuffer) := rd : Z * string in
      if readRet <? 0 then ret readRet
      else
        match strstr recvBuffer "WAITING" with
        | Some _ =>
            let newTopicCommand := "TOPIC " ++ roomName ++ " PLAYING" ++ CRLF in
            _ <- network_send net newTopicCommand (strlen newTopicCommand) ;;
            ret (NO_ERROR cfg)
        | None =>
            match strstr recvBuffer "PLAYING" with
            | Some _ =>
                let newTopicCommand :=
                  "TOPIC " ++ roomName ++ " WAITING" ++ CRLF in
                _ <- network_send net newTopicCommand
                       (strlen newTopicCommand) ;;
                ret (NO_ERROR cfg)
            | None => ret (TOGGLE_ROOM_STATUS_ERROR cfg)
            end
        end.

(** [for (int i = 0; i <= 999; i++)]: [n] iterations are left and the
    counter is [i]. *)
Fixpoint getAvailableRoom_loop (n : nat) (i : Z) : M Z :=
  match n with
  | O => ret (-1)
  | S n' =>
      isUsed <- irc_toggleRoomStatus i ;;
      if isUsed =? 0 then ret i
      else getAvailableRoom_loop n' (i + 1)
  end.

Definition irc_getAvailableRoom : M Z := getAvailableRoom_loop 1000 0.

Definition irc_createRoom : M Z :=
  roomNumber <- irc_getAvailableRoom ;;
  if roomNumber =? -1 then ret (-1)
  else
    room <- get_currentRoom ;;
    if negb (room =? -1) then ret (-1)
    else
      let roomName := sprintf_ROOM_FORMAT cfg roomNumber in
      let joinCommand := "JOIN " ++ roomName ++ CRLF in
      let topicCommand := "TOPIC " ++ roomName ++ " " ++ "WAITING" ++ CRLF in
      sendRet <- network_send net joinCommand (strlen joinCommand) ;;
      if negb (sendRet =? NO_ERROR cfg) then ret sendRet
      else
        sendRet <- network_send net topicCommand (strlen topicCommand) ;;
        if negb (sendRet =? NO_ERROR cfg) then ret sendRet
        else ret roomNumber.

(** The result is the [char *] returned: [None] for NULL.  The block the
    source allocates for the copy is one byte short of the copied string;
    the sizes of heap blocks are outside the model. *)
Definition irc_getNames (isRoom : Z) : M (Outcome (option string)) :=
  room <- get_currentRoom ;;
  if negb (isRoom =? 0) && (room =? -1) then ret (Normal None)
  else
    let namesCommand :=
      if negb (isRoom =? 0)
      then "NAMES " ++ sprintf_ROOM_FORMAT cfg room ++ CRLF
      else "NAMES " ++ LOBBY_CHANNEL cfg ++ CRLF in
    sendRet <- network_send net namesCommand (strlen namesCommand) ;;
    if negb (sendRet =? NO_ERROR cfg) then ret (Normal None)
    else
      rd <- network_read net 512 ;;
      let (readRet, buffer) := rd : Z * string in
      if readRet <? 0 then ret (Normal None)
      else
        match strchr buffer ":" with
        | None => ret Undefined
        | Some namesListStart =>
            ret (Normal (Some (drop (Z.to_nat namesListStart) buffer)))
        end.

Definition irc_invite (nickname : string) : M (Outcome Z) :=
  room <- get_currentRoom ;;
  if room =? -1 then ret (Normal (-1))
  else
    channelNames <- irc_getNames 0 ;;
    match channelNames with
    | Undefined => ret Undefined
    | Normal None => ret (Normal (-2))
    | Normal (Some names) =>
        match strstr names nickname with
        | None => ret (Normal (-3))
        | Some _ =>
            let roomName := sprintf_ROOM_FORMAT cfg room in
            let inviteCommand :=
              "INVITE " ++ roomName ++ " " ++ nickname ++ CRLF in
            sendRet <- network_send net inviteCommand (strlen inviteCommand) ;;
            if negb (sendRet =? NO_ERROR cfg) then ret (Normal sendRet)
            else ret (Normal 0)
        end
    end.

Definition irc_disconnect : M Z :=
  sendRet <- network_send net ("QUIT" ++ CRLF) 6 ;;
  if negb (sendRet =? NO_ERROR cfg) then ret sendRet
  else
    disconnRet <- network_disconnect net ;;
    if negb (disconnRet =? NO_ERROR cfg) then ret disconnRet
    else ret (NO_ERROR cfg).

(** [MESSAGE_TOO_LONG] is declared in [errors.h]; it is the first argument
    here. *)
Definition irc_sendLobbyMessage (MESSAGE_TOO_LONG : Z) (message : string)
  : M Z :=
  if strlen message >? 512 then ret MESSAGE_TOO_LONG
  else
    let lobbyMessageCommand :=
      "PRIVMSG " ++ LOBBY_CHANNEL cfg ++ " " ++ message ++ CRLF in
    network_send net lobbyMessageCommand (strlen lobbyMessageCommand).

End Irc.
End Part000.

(** ** The earlier revision, [src/irc/irc.c] *)

Module IrcC.

Section Irc.
Variable cfg : Config.
Variable net : Transport.

Definition irc_connect (name : string) : M Z :=
  connectRet <- network_connect net (IRC_SERVER cfg) (IRC_PORT cfg) ;;
  if negb (connectRet =? NO_ERROR cfg) then ret connectRet
  else
    let nickCommand := "NICK " ++ name ++ CRLF in
    let userCommand := "USER " ++ name ++ " 8 * :" ++ name ++ CRLF in
    let joinCommand := "JOIN " ++ LOBBY_CHANNEL cfg ++ CRLF in
    _ <- network_send net ("PASS *" ++ CRLF) 8 ;;
    _ <- network_send net nickCommand (strlen nickCommand) ;;
    _ <- network_send net userCommand (strlen userCommand) ;;
    _ <- network_send net joinCommand (strlen joinCommand) ;;
    ret (NO_ERROR cfg).

Definition irc_toggleRoomStatus (roomNumber : Z) : M Z :=
  let roomName := sprintf_ROOM_FORMAT cfg roomNumber in
  let topicCommand := "TOPIC " ++ roomName ++ CRLF in
  sendRet <- network_send net topicCommand (strlen topicCommand) ;;
  if negb (sendRet =? NO_ERROR cfg) then ret sendRet
  else
    rd <- network_read net 512 ;;
    let (readRet, recvBuffer) := rd : Z * string in
    if negb (readRet =? NO_ERROR cfg) then ret readRet
    else
      match strstr recvBuffer ":No topic is set" with
      | Some _ => ret 0
      | None =>
          match strstr recvBuffer "WAITING" with
          | Some _ => ret 1
          | None =>
              match strstr recvBuffer "PLAYING" with
              | Some _ => ret 2
              | None => ret (-1)
              end
          end
      end.

Fixpoint getAvailableRoom_loop (n : nat) (i : Z) : M Z :=
  match n with
  | O => ret (-1)
  | S n' =>
      isUsed <- irc_toggleRoomStatus i ;;
      if isUsed =? 0 then ret i
      else getAvailableRoom_loop n' (i + 1)
  end.

Definition irc_getAvailableRoom : M Z := getAvailableRoom_loop 1000 0.

Definition irc_createRoom : M Z :=
  roomNumber <- irc_getAvailableRoom ;;
  if roomNumber =? -1 then ret (-1)
  else
    room <- get_currentRoom ;;
    if negb (room =? -1) then ret (-1)
    else
      let roomName := sprintf_ROOM_FORMAT cfg roomNumber in
      let joinCommand := "JOIN " ++ roomName ++ CRLF in
      let topicCommand := "TOPIC " ++ roomName ++ " " ++ "WAITING" ++ CRLF in
      sendRet <- network_send net joinCommand (strlen joinCommand) ;;
      if negb (sendRet =? NO_ERROR cfg) then ret sendRet
      else
        sendRet <- network_send net topicCommand (strlen topicCommand) ;;
        if negb (sendRet =? NO_ERROR cfg) then ret sendRet
        else ret roomNumber.

Definition MESSAGE_TOO_LONG : Z := -21.
Definition PARAMETER_OUT_OF_RANGE : Z := -23.
Definition LEAVE_ROOM_ERROR : Z := -24.

Definition irc_disconnect : M Z :=
  sendRet <- network_send net ("QUIT" ++ CRLF) 6 ;;
  if negb (sendRet =? NO_ERROR cfg) then ret sendRet
  else
    disconnRet <- network_disconnect net ;;
    if negb (disconnRet =? NO_ERROR cfg) then ret disconnRet
    else ret (NO_ERROR cfg).

Definition irc_joinRoom (roomNumber : Z) : M Z :=
  if (roomNumber <? 0) || (roomNumber >? 999)
  then ret PARAMETER_OUT_OF_RANGE
  else
    let roomName := sprintf_ROOM_FORMAT cfg roomNumber in
    let joinCommand := "JOIN " ++ roomName ++ CRLF in
    sendRet <- network_send net joinCommand (strlen joinCommand) ;;
    if negb (sendRet =? NO_ERROR cfg) then ret sendRet
    else
      _ <- set_currentRoom roomNumber ;;
      ret (NO_ERROR cfg).

Definition irc_leaveRoom : M Z :=
  room <- get_currentRoom ;;
  if room <? 0 then ret LEAVE_ROOM_ERROR
  else
    let roomName := sprintf_ROOM_FORMAT cfg room in
    let partCommand := "PART " ++ roomName ++ CRLF in
    sendRet <- network_send net partCommand (strlen partCommand) ;;
    if negb (sendRet =? NO_ERROR cfg) then ret sendRet
    else
      _ <- set_currentRoom (-1) ;;
      ret (NO_ERROR cfg).

Definition irc_sendLobbyMessage (message : string) : M Z :=
  if strlen message >? 512 then ret MESSAGE_TOO_LONG
  else
    let lobbyMessageCommand :=
      "PRIVMSG " ++ LOBBY_CHANNEL cfg ++ " " ++ message ++ CRLF in
    network_send net lobbyMessageCommand (strlen lobbyMessageCommand).

End Irc.
End IrcC.

(** ** A configuration and servers to run the code on *)

Definition sample_cfg : Config := {|
  NO_ERROR := 0;
  PARAMETER_OUT_OF_RANGE := -23;
  LEAVE_ROOM_ERROR := -24;
  TOGGLE_ROOM_STATUS_ERROR := -25;
  IRC_SERVER := "irc.freenode.net";
  IRC_PORT := 6667;
  LOBBY_CHANNEL := "#cruce-lobby";
  ROOM_PREFIX := "#cruce-game";
  MAX_MESSAGE_SIZE := 512
|}.

(** A transport on which every call succeeds; every read returns [readRet]
    and puts [reply] into the buffer. *)
Definition constant_server (cfg : Config) (readRet : Z) (reply : string)
  : Transport := {|
  connect_ret := fun _ => NO_ERROR cfg;
  send_ret := fun _ => NO_ERROR cfg;
  read_ret := fun _ => (readRet, reply);
  readLine_ret := fun _ => reply;
  disconnect_ret := fun _ => NO_ERROR cfg
|}.

(** A transport whose sends all fail with [code]. *)
Definition failing_send_server (cfg : Config) (code : Z) : Transport := {|
  connect_ret := fun _ => NO_ERROR cfg;
  send_ret := fun _ => code;
  read_ret := fun _ => (0, EmptyString);
  readLine_ret := fun _ => EmptyString;
  disconnect_ret := fun _ => NO_ERROR cfg
|}.

(** The buffer of the most recent send of a trace. *)
Definition last_send (t : list Event) : string :=
  fold_left (fun acc e => match e with EvSend buf _ => buf | _ => acc end)
            t EmptyString.

(** A server that answers each read with [reply_to] the last command. *)
Definition reply_server (cfg : Config) (readRet : Z)
  (reply_to : string -> string) : Transport := {|
  connect_ret := fun _ => NO_ERROR cfg;
  send_ret := fun _ => NO_ERROR cfg;
  read_ret := fun t => (readRet, reply_to (last_send t));
  readLine_ret := fun t => reply_to (last_send t);
  disconnect_ret := fun _ => NO_ERROR cfg
|}.

Definition no_topic_reply : string :=
  ":irc.example.org 331 alice #cruce-game000 :No topic is set".

Definition waiting_reply : string :=
  ":irc.example.org 332 alice #cruce-game000 :WAITING".

Definition playing_reply : string :=
  ":irc.example.org 332 alice #cruce-game000 :PLAYING".

(** Rooms 0 to 4 are in use, every other room has no topic. *)
Definition five_rooms_taken (cmd : string) : string :=
  if String.prefix "TOPIC #cruce-game000" cmd then waiting_reply
  else if String.prefix "TOPIC #cruce-game001" cmd then playing_reply
  else if String.prefix "TOPIC #cruce-game002" cmd then waiting_reply
  else if String.prefix "TOPIC #cruce-game003" cmd then playing_reply
  else if String.prefix "TOPIC #cruce-game004" cmd then waiting_reply
  else no_topic_reply.

Definition in_room (room : Z) : State := {| currentRoom := room; trace := [] |}.

Definition privmsg_line : string :=
  ":nick!user@host PRIVMSG #room :hello there".

(** The message the specification expects for [privmsg_line]. *)
Definition privmsg_expected : Outcome Part000.IrcMessage :=
  Normal {| Part000.prefix := "nick!user@host";
            Part000.command := "PRIVMSG";
            Part000.trailing := "hello there" |}.

(** ** The names list as the specification words it *)

(** The pieces of [s] between spaces; [cur] is the piece being read, last
    character first. *)
Fixpoint rev_string (s acc : string) : string :=
  match s with
  | EmptyString => acc
  | String a s' => rev_string s' (String a acc)
  end.

Fixpoint tokens_from (s cur : string) : list string :=
  match s with
  | EmptyString =>
      match cur with
      | EmptyString => []
      | _ => [rev_string cur EmptyString]
      end
  | String a s' =>
      if Ascii.eqb a " "
      then match cur with
           | EmptyString => tokens_from s' EmptyString
           | _ => rev_string cur EmptyString :: tokens_from s' EmptyString
           end
      else tokens_from s' (String a cur)
  end.

Definition tokens (s : string) : list string := tokens_from s EmptyString.

(** Everything after the first [':'] of the response, as space-separated
    tokens; [None] stands for [ProtocolError]. *)
Definition spec_names_list (response : string) : option (list string) :=
  match strchr response ":" with
  | None => None
  | Some colon => Some (tokens (drop (Z.to_nat (colon + 1)) response))
  end.

(** ** The scan of [IrcC.irc_getAvailableRoom], probe by probe *)

(** The state in which room [i] is probed, after rooms [0 .. i-1]. *)
Fixpoint scan_state (cfg : Config) (net : Transport) (s : State) (i : nat)
  : State :=
  match i with
  | O => s
  | S i' =>
      snd (IrcC.irc_toggleRoomStatus cfg net (Z.of_nat i')
             (scan_state cfg net s i'))
  end.

(** What the probe of room [i] returns during the scan: 0 for [Unset]. *)
Definition scan_status (cfg : Config) (net : Transport) (s : State) (i : nat)
  : Z :=
  fst (IrcC.irc_toggleRoomStatus cfg net (Z.of_nat i) (scan_state cfg net s i)).

(** A topic fetch or a read: the only calls a read-only probe makes. *)
Definition is_fetch (cfg : Config) (e : Event) : Prop :=
  match e with
  | EvSend buf len =>
      exists room : Z,
        buf = "TOPIC " ++ sprintf_ROOM_FORMAT cfg room ++ CRLF
        /\ len = strlen buf
  | EvRead _ => True
  | _ => False
  end.

(** ** What a session can be in, and what went over the wire *)

(** [currentRoom] is -1 or the number of a room. *)
Definition room_ok (s : State) : Prop :=
  currentRoom s = -1 \/ 0 <= currentRoom s <= 999.

(** The bytes of all the sends of a trace, in order. *)
Fixpoint wire (t : list Event) : string :=
  match t with
  | [] => EmptyString
  | e :: t' =>
      match payload e with
      | Some bytes => bytes ++ wire t'
      | None => wire t'
      end
  end.

(** The number of sends of a trace. *)
Fixpoint sends (t : list Event) : nat :=
  match t with
  | [] => O
  | EvSend _ _ :: t' => S (sends t')
  | _ :: t' => sends t'
  end.

(** The constants of [errors.h] with the values [src/irc/irc.c] gives
    them. *)
Definition agrees_with_irc_c (cfg : Config) : Prop :=
  PARAMETER_OUT_OF_RANGE cfg = IrcC.PARAMETER_OUT_OF_RANGE /\
  LEAVE_ROOM_ERROR cfg = IrcC.LEAVE_ROOM_ERROR.

(** * Properties *)

(** ** Strings and conversions *)

Lemma strlen_nonneg (s : string) : 0 <= strlen s.
Proof. unfold strlen. lia. Qed.

Lemma length_app (a b : string) :
  String.length (a ++ b) = (String.length a + String.length b)%nat.
Proof. induction a as [|c a IH]; simpl; [reflexivity | now rewrite IH]. Qed.

Lemma strlen_app (a b : string) : strlen (a ++ b) = strlen a + strlen b.
Proof. unfold strlen. rewrite length_app. lia. Qed.

Lemma strlen_String (c : ascii) (s : string) :
  strlen (String c s) = 1 + strlen s.
Proof. unfold strlen. simpl String.length. lia. Qed.

Lemma int_of_size_t_small (z : Z) :
  -1 <= z <= INT_MAX -> int_of_size_t z = z.
Proof.
  intros H. unfold int_of_size_t, INT_MAX in *.
  rewrite Z.mod_small; lia.
Qed.

Lemma substring_whole (s : string) :
  String.substring 0 (String.length s) s = s.
Proof. induction s as [|c s IH]; simpl; [reflexivity | now rewrite IH]. Qed.

Lemma Zeqb_same (z : Z) : (z =? z) = true.
Proof. apply Z.eqb_refl. Qed.

Lemma bind_run {A B : Type} (m : M A) (k : A -> M B) (s : State) :
  bind m k s = k (fst (m s)) (snd (m s)).
Proof. unfold bind. destruct (m s); reflexivity. Qed.

(** ** The parser *)

Lemma parseMessage_without_colon (str : string) :
  (forall rest, str <> String ":" rest) ->
  Part000.parseMessage str = Undefined.
Proof.
  intros H. unfold Part000.parseMessage.
  destruct str as [|a rest]; [reflexivity|].
  destruct a as [b0 b1 b2 b3 b4 b5 b6 b7].
  destruct b0, b1, b2, b3, b4, b5, b6, b7; try reflexivity.
  exfalso. apply (H rest). reflexivity.
Qed.

(** C8. A line that does not begin with [':'] leaves [prefixEnd]
    unassigned, and the offsets of the command and of the trailing part are
    computed from it all the same: for every such line the parse is
    undefined, both for the parser applied to the line and for
    [getNextMessage] reading the line from the transport. *)
Theorem C8_no_prefix_is_undefined :
  forall (cfg : Config) (net : Transport) (s : State) (str : string),
    (forall rest, str <> String ":" rest) ->
    Part000.parseMessage str = Undefined /\
    (readLine_ret net (trace s ++ [EvReadLine (MAX_MESSAGE_SIZE cfg)])%list
       = str ->
     fst (Part000.getNextMessage cfg net s) = Undefined).
Proof.
  intros cfg net s str H. split.
  - now apply parseMessage_without_colon.
  - intros Hline. unfold Part000.getNextMessage, bind, ret, network_readLine.
    simpl. rewrite Hline. now apply parseMessage_without_colon.
Qed.

Lemma C8_no_prefix_is_undefined_witness :
  Part000.parseMessage "PING :irc.example.org" = Undefined /\
  fst (Part000.getNextMessage sample_cfg
         (constant_server sample_cfg 0 "PING :irc.example.org")
         initial_state) = Undefined.
Proof.
  assert (H : forall rest, "PING :irc.example.org" <> String ":" rest)
    by (intros rest; discriminate).
  destruct (C8_no_prefix_is_undefined sample_cfg
              (constant_server sample_cfg 0 "PING :irc.example.org")
              initial_state "PING :irc.example.org" H) as [Hp Hg].
  split; [exact Hp | apply Hg; reflexivity].
Defined.

(** C5, as stated, fails: on the PRIVMSG line the prefix comes out one
    character short and the trailing part starts at ["#room"], whether the
    line is taken bare, with a newline or with CR LF. *)
Lemma C5_privmsg_counterexample :
  Part000.parseMessage privmsg_line <> privmsg_expected /\
  Part000.parseMessage (privmsg_line ++ String LF EmptyString)
    <> privmsg_expected /\
  Part000.parseMessage (privmsg_line ++ CRLF) <> privmsg_expected /\
  Part000.parseMessage (privmsg_line ++ String LF EmptyString)
  = Normal {| Part000.prefix := "nick!user@hos";
              Part000.command := "PRIVMSG";
              Part000.trailing := "#room :hello there" |}.
Proof.
  repeat split; try (vm_compute; discriminate).
Qed.

(** C5, amended. On the PRIVMSG line the command is exactly ["PRIVMSG"] and
    the trailing part is everything after the space that ends the command,
    less the last character of the line: ["#room :hello there"] when the
    line carries its newline, ["#room :hello ther"] when it is bare. *)
Theorem C5_privmsg_command_and_trailing :
  (exists m, Part000.parseMessage (privmsg_line ++ String LF EmptyString)
             = Normal m
             /\ Part000.command m = "PRIVMSG"
             /\ Part000.trailing m = "#room :hello there") /\
  (exists m, Part000.parseMessage privmsg_line = Normal m
             /\ Part000.command m = "PRIVMSG"
             /\ Part000.trailing m = "#room :hello ther").
Proof.
  split; eexists; (split; [vm_compute; reflexivity | split; reflexivity]).
Qed.

(** ** The parser on lines that have a prefix *)

Lemma substring_drop (n m : nat) (s : string) :
  String.substring n m s = String.substring 0 m (drop n s).
Proof.
  revert s. induction n as [|n IH]; intros s.
  - reflexivity.
  - destruct s as [|a s]; cbn [drop String.substring].
    + destruct m; reflexivity.
    + apply IH.
Qed.

Lemma drop_app (a b : string) (k : nat) :
  drop (String.length a + k) (a ++ b) = drop k b.
Proof. induction a as [|c a IH]; [reflexivity | exact IH]. Qed.

Lemma substring_app_left (a b : string) (m : nat) :
  (m <= String.length a)%nat ->
  String.substring 0 m (a ++ b) = String.substring 0 m a.
Proof.
  revert m. induction a as [|c a IH]; intros m Hm.
  - cbn [String.length] in Hm. replace m with O by lia.
    destruct b; reflexivity.
  - destruct m as [|m]; [reflexivity|].
    cbn [String.length] in Hm. cbn [String.append String.substring].
    rewrite IH by lia. reflexivity.
Qed.

Lemma strchr_app_first (a b : string) (c : ascii) :
  strchr a c = None ->
  strchr (a ++ String c b) c = Some (strlen a).
Proof.
  induction a as [|x a IH]; intros Hnone.
  - cbn [String.append strchr]. now rewrite Ascii.eqb_refl.
  - cbn [String.append strchr] in *.
    destruct (Ascii.eqb x c); [discriminate|].
    destruct (strchr a c); [discriminate|].
    rewrite IH by reflexivity. rewrite strlen_String. f_equal. lia.
Qed.

(** On a line [":" prefix " " command " " rest] the command is found, the
    prefix loses its last character, and the trailing part is the rest of
    the line without its last character. *)
Lemma parseMessage_prefixed (p c r : string) :
  strchr p " " = None ->
  strchr c " " = None ->
  1 <= strlen p ->
  1 <= strlen r <= INT_MAX ->
  Part000.parseMessage (String ":" (p ++ String " " (c ++ String " " r)))
  = Normal
      {| Part000.prefix := String.substring 0 (String.length p - 1) p;
         Part000.command := c;
         Part000.trailing := String.substring 0 (String.length r - 1) r |}.
Proof.
  intros Hp Hc Hlp Hlr.
  set (str := String ":" (p ++ String " " (c ++ String " " r))).
  assert (Hspace : strchr str " " = Some (strlen p + 1)).
  { unfold str. cbn [strchr]. change (Ascii.eqb ":" " ") with false.
    cbn iota. now rewrite strchr_app_first. }
  assert (Hdrop1 : drop (Z.to_nat (strlen p + 1 - 1 + 2)) str
                   = c ++ String " " r).
  { unfold str, strlen.
    replace (Z.to_nat (Z.of_nat (String.length p) + 1 - 1 + 2))
      with (S (String.length p + 1)) by lia.
    cbn [drop]. rewrite drop_app. reflexivity. }
  assert (Hdrop2 :
    drop (Z.to_nat (strlen p + 1 - 1 + 2 + strlen c + 1)) str = r).
  { unfold str, strlen.
    replace (Z.to_nat (Z.of_nat (String.length p) + 1 - 1 + 2
                       + Z.of_nat (String.length c) + 1))
      with (S (String.length p + S (String.length c + 1))) by lia.
    cbn [drop]. rewrite drop_app. cbn [drop]. rewrite drop_app.
    reflexivity. }
  unfold Part000.parseMessage. fold str. rewrite Hspace.
  unfold str at 1. cbv beta iota.
  unfold strchr_at. rewrite Hdrop1, (strchr_app_first c r " " Hc), Hdrop2.
  rewrite int_of_size_t_small by lia.
  replace (strlen p + 1 - 1 - 0 - 1 <? 0) with false
    by (symmetry; apply Z.ltb_ge; lia).
  replace (strlen p + 1 - 1 + 2 + strlen c + 1 - 2
           - (strlen p + 1 - 1 + 2) + 1 <? 0) with false
    by (symmetry; apply Z.ltb_ge; pose proof (strlen_nonneg c); lia).
  replace (strlen r - 1 <? 0) with false
    by (symmetry; apply Z.ltb_ge; lia).
  cbn [orb]. unfold strncpy_at. f_equal. f_equal.
  - rewrite substring_drop. unfold str.
    change (Z.to_nat 1) with 1%nat. cbn [drop].
    replace (Z.to_nat (strlen p + 1 - 1 - 0 - 1))
      with (String.length p - 1)%nat by (unfold strlen; lia).
    apply substring_app_left. lia.
  - rewrite substring_drop, Hdrop1.
    replace (Z.to_nat (strlen p + 1 - 1 + 2 + strlen c + 1 - 2
                       - (strlen p + 1 - 1 + 2) + 1))
      with (String.length c) by (unfold strlen; lia).
    rewrite substring_app_left by lia. apply substring_whole.
  - rewrite substring_drop, Hdrop2. f_equal. unfold strlen. lia.
Qed.

(** ** The handshake *)

(** The four commands of the handshake, in the order they are written. *)
Lemma handshake_length (cfg : Config) (name : string) :
  8 + strlen ("NICK " ++ name ++ CRLF)
    + strlen ("USER " ++ name ++ " 8 * :" ++ name ++ CRLF)
    + strlen ("JOIN " ++ LOBBY_CHANNEL cfg ++ CRLF)
  = strlen ("PASS *" ++ CRLF ++ ("NICK " ++ name ++ CRLF)
              ++ ("USER " ++ name ++ " 8 * :" ++ name ++ CRLF)
              ++ ("JOIN " ++ LOBBY_CHANNEL cfg ++ CRLF)).
Proof.
  change ("PASS *" ++ CRLF ++ ("NICK " ++ name ++ CRLF)
            ++ ("USER " ++ name ++ " 8 * :" ++ name ++ CRLF)
            ++ ("JOIN " ++ LOBBY_CHANNEL cfg ++ CRLF))
    with (("PASS *" ++ CRLF) ++ ("NICK " ++ name ++ CRLF)
            ++ ("USER " ++ name ++ " 8 * :" ++ name ++ CRLF)
            ++ ("JOIN " ++ LOBBY_CHANNEL cfg ++ CRLF)).
  rewrite (strlen_app ("PASS *" ++ CRLF)).
  rewrite (strlen_app ("NICK " ++ name ++ CRLF)).
  rewrite (strlen_app ("USER " ++ name ++ " 8 * :" ++ name ++ CRLF)).
  change (strlen ("PASS *" ++ CRLF)) with 8. lia.
Qed.

(** C6. A name of length 0 or of more than 9 characters makes
    [irc_connect] return [PARAMETER_OUT_OF_RANGE] in the state it was called
    in: nothing was connected or sent.  A name of 1 to 9 characters passes
    the check, and the first thing that happens is the connection.  (The
    length is stored in an [int]; the names are those whose length fits.) *)
Theorem C6_connect_validates_name_length :
  forall (cfg : Config) (net : Transport) (name : string) (s : State),
    strlen name <= INT_MAX ->
    (strlen name = 0 \/ 9 < strlen name ->
     Part000.irc_connect cfg net name s = (PARAMETER_OUT_OF_RANGE cfg, s)) /\
    (1 <= strlen name <= 9 ->
     exists rest,
       trace (snd (Part000.irc_connect cfg net name s))
       = (trace s ++ EvConnect (IRC_SERVER cfg) (IRC_PORT cfg) :: rest)%list).
Proof.
  intros cfg net name s Hfit.
  pose proof (strlen_nonneg name) as Hnn.
  unfold Part000.irc_connect.
  rewrite int_of_size_t_small by lia.
  split; intros H.
  - replace ((strlen name =? 0) || (strlen name >? 9)) with true;
      [reflexivity|].
    symmetry. apply orb_true_iff. destruct H as [H|H].
    + left. now apply Z.eqb_eq.
    + right. apply Z.gtb_lt. lia.
  - replace ((strlen name =? 0) || (strlen name >? 9)) with false.
    + unfold bind, ret, network_connect, network_send. simpl.
      destruct (negb _); simpl.
      * exists []. reflexivity.
      * destruct (negb _); simpl; rewrite <- app_assoc; eexists; reflexivity.
    + symmetry. apply orb_false_iff. split.
      * apply Z.eqb_neq. lia.
      * rewrite Z.gtb_ltb. apply Z.ltb_ge. lia.
Qed.

Lemma C6_connect_validates_name_length_witness :
  strlen "toolongnickname" <= INT_MAX /\
  9 < strlen "toolongnickname" /\
  Part000.irc_connect sample_cfg (constant_server sample_cfg 0 EmptyString)
    "toolongnickname" initial_state
  = (PARAMETER_OUT_OF_RANGE sample_cfg, initial_state).
Proof.
  assert (Hfit : strlen "toolongnickname" <= INT_MAX)
    by (vm_compute; discriminate).
  assert (Hlong : 9 < strlen "toolongnickname") by reflexivity.
  split; [exact Hfit | split; [exact Hlong|]].
  apply (C6_connect_validates_name_length sample_cfg
           (constant_server sample_cfg 0 EmptyString)
           "toolongnickname" initial_state Hfit).
  right. exact Hlong.
Defined.

(** C7. When [irc_connect] returns [NO_ERROR] it has made exactly two
    calls: the connection, and one send whose buffer is ["PASS *"], ["NICK
    <name>"], ["USER <name> 8 * :<name>"] and ["JOIN <lobby>"], each ended
    by CR LF, sent in its whole length. *)
Theorem C7_connect_sends_one_batch :
  forall (cfg : Config) (net : Transport) (name : string) (s s' : State),
    PARAMETER_OUT_OF_RANGE cfg <> NO_ERROR cfg ->
    strlen name <= INT_MAX ->
    strlen (LOBBY_CHANNEL cfg) <= 1000000 ->
    Part000.irc_connect cfg net name s = (NO_ERROR cfg, s') ->
    let handshake :=
      "PASS *" ++ CRLF ++
      ("NICK " ++ name ++ CRLF) ++
      ("USER " ++ name ++ " 8 * :" ++ name ++ CRLF) ++
      ("JOIN " ++ LOBBY_CHANNEL cfg ++ CRLF) in
    trace s' = (trace s ++ [EvConnect (IRC_SERVER cfg) (IRC_PORT cfg);
                            EvSend handshake (strlen handshake)])%list /\
    payload (EvSend handshake (strlen handshake)) = Some handshake /\
    currentRoom s' = currentRoom s.
Proof.
  intros cfg net name s s' Hcodes Hfit Hlobby Hrun handshake.
  pose proof (strlen_nonneg name) as Hnn.
  pose proof (strlen_nonneg (LOBBY_CHANNEL cfg)) as Hln.
  unfold Part000.irc_connect in Hrun.
  rewrite int_of_size_t_small in Hrun by lia.
  destruct ((strlen name =? 0) || (strlen name >? 9)) eqn:Hcheck.
  { unfold ret in Hrun. congruence. }
  apply orb_false_iff in Hcheck. destruct Hcheck as [Hz Hg].
  apply Z.eqb_neq in Hz. rewrite Z.gtb_ltb in Hg. apply Z.ltb_ge in Hg.
  rewrite handshake_length in Hrun. fold handshake in Hrun.
  assert (Hlen : strlen handshake <= INT_MAX).
  { unfold handshake. rewrite <- handshake_length.
    rewrite !strlen_app. change (strlen CRLF) with 2.
    change (strlen "NICK ") with 5. change (strlen "USER ") with 5.
    change (strlen " 8 * :") with 6. change (strlen "JOIN ") with 5.
    unfold INT_MAX. lia. }
  rewrite int_of_size_t_small in Hrun
    by (pose proof (strlen_nonneg handshake); lia).
  unfold bind, ret, network_connect, network_send in Hrun. simpl in Hrun.
  destruct (negb (connect_ret net _ =? NO_ERROR cfg)) eqn:Hconn.
  { apply negb_true_iff, Z.eqb_neq in Hconn.
    injection Hrun as Hret _. congruence. }
  simpl in Hrun.
  destruct (negb (send_ret net _ =? NO_ERROR cfg)) eqn:Hsend.
  { apply negb_true_iff, Z.eqb_neq in Hsend.
    injection Hrun as Hret _. congruence. }
  injection Hrun as Hs'. subst s'. split; [|split].
  - simpl. rewrite <- app_assoc. reflexivity.
  - unfold payload, strlen. rewrite Nat2Z.id. now rewrite substring_whole.
  - reflexivity.
Qed.

Lemma C7_connect_sends_one_batch_witness :
  trace (snd (Part000.irc_connect sample_cfg
                (constant_server sample_cfg 0 EmptyString)
                "alice" initial_state))
  = [EvConnect "irc.freenode.net" 6667;
     EvSend ("PASS *" ++ CRLF ++ "NICK alice" ++ CRLF
               ++ "USER alice 8 * :alice" ++ CRLF
               ++ "JOIN #cruce-lobby" ++ CRLF) 62].
Proof.
  assert (Hcodes : PARAMETER_OUT_OF_RANGE sample_cfg <> NO_ERROR sample_cfg)
    by discriminate.
  assert (Hfit : strlen "alice" <= INT_MAX) by (vm_compute; discriminate).
  assert (Hlobby : strlen (LOBBY_CHANNEL sample_cfg) <= 1000000)
    by (vm_compute; discriminate).
  destruct (C7_connect_sends_one_batch sample_cfg
              (constant_server sample_cfg 0 EmptyString) "alice"
              initial_state
              (snd (Part000.irc_connect sample_cfg
                      (constant_server sample_cfg 0 EmptyString)
                      "alice" initial_state))
              Hcodes Hfit Hlobby eq_refl) as [Htrace _].
  exact Htrace.
Defined.

(** The earlier revision does not look at the name: with an empty name it
    connects and makes four sends, one per command. *)
Lemma IrcC_connect_unchecked_four_sends :
  IrcC.irc_connect sample_cfg (constant_server sample_cfg 0 EmptyString)
    EmptyString initial_state
  = (0, {| currentRoom := -1;
           trace := [EvConnect "irc.freenode.net" 6667;
                     EvSend ("PASS *" ++ CRLF) 8;
                     EvSend ("NICK " ++ CRLF) 7;
                     EvSend ("USER  8 * :" ++ CRLF) 13;
                     EvSend ("JOIN #cruce-lobby" ++ CRLF) 19] |}).
Proof. vm_compute. reflexivity. Qed.

(** ** Joining and leaving a room *)

(** C10. When the send of [irc_joinRoom] or of [irc_leaveRoom] returns a
    code other than [NO_ERROR], the function returns that code and
    [currentRoom] keeps the value it had before the call; the only thing
    that happened is the send. *)
Theorem C10_failed_send_keeps_currentRoom :
  forall (cfg : Config) (net : Transport) (roomNumber : Z) (s : State),
    let joinCommand :=
      "JOIN " ++ sprintf_ROOM_FORMAT cfg roomNumber ++ CRLF in
    let partCommand :=
      "PART " ++ sprintf_ROOM_FORMAT cfg (currentRoom s) ++ CRLF in
    let joinSend := EvSend joinCommand (strlen joinCommand) in
    let partSend := EvSend partCommand (strlen partCommand) in
    (0 <= roomNumber <= 999 ->
     send_ret net (trace s ++ [joinSend])%list <> NO_ERROR cfg ->
     Part000.irc_joinRoom cfg net roomNumber s
     = (send_ret net (trace s ++ [joinSend])%list,
        {| currentRoom := currentRoom s;
           trace := (trace s ++ [joinSend])%list |})) /\
    (0 <= currentRoom s ->
     send_ret net (trace s ++ [partSend])%list <> NO_ERROR cfg ->
     Part000.irc_leaveRoom cfg net s
     = (send_ret net (trace s ++ [partSend])%list,
        {| currentRoom := currentRoom s;
           trace := (trace s ++ [partSend])%list |})).
Proof.
  intros cfg net roomNumber s joinCommand partCommand joinSend partSend.
  split.
  - intros Hrange Hfail. unfold Part000.irc_joinRoom.
    replace ((roomNumber <? 0) || (roomNumber >? 999)) with false.
    + unfold bind, ret, network_send, log. cbn [trace currentRoom].
      fold joinCommand. fold joinSend.
      apply Z.eqb_neq in Hfail. rewrite Hfail. reflexivity.
    + symmetry. apply orb_false_iff. split.
      * apply Z.ltb_ge. lia.
      * rewrite Z.gtb_ltb. apply Z.ltb_ge. lia.
  - intros Hin Hfail. unfold Part000.irc_leaveRoom.
    unfold bind, ret, get_currentRoom, network_send, log.
    apply Z.ltb_ge in Hin. rewrite Hin. cbn [trace currentRoom].
    fold partCommand. fold partSend.
    apply Z.eqb_neq in Hfail. rewrite Hfail. reflexivity.
Qed.

Lemma C10_failed_send_keeps_currentRoom_witness :
  Part000.irc_joinRoom sample_cfg (failing_send_server sample_cfg (-7)) 5
    (in_room 2)
  = (-7, {| currentRoom := 2;
            trace := [EvSend ("JOIN #cruce-game005" ++ CRLF) 21] |}) /\
  Part000.irc_leaveRoom sample_cfg (failing_send_server sample_cfg (-7))
    (in_room 2)
  = (-7, {| currentRoom := 2;
            trace := [EvSend ("PART #cruce-game002" ++ CRLF) 21] |}).
Proof.
  destruct (C10_failed_send_keeps_currentRoom sample_cfg
              (failing_send_server sample_cfg (-7)) 5 (in_room 2))
    as [Hjoin Hleave].
  split.
  - apply Hjoin; [lia | discriminate].
  - apply Hleave; [simpl; lia | discriminate].
Defined.

(** When the send succeeds, the room is recorded (join) or reset (leave). *)
Lemma joinRoom_success (cfg : Config) (net : Transport) (roomNumber : Z)
  (s : State) :
  let joinCommand := "JOIN " ++ sprintf_ROOM_FORMAT cfg roomNumber ++ CRLF in
  let joinSend := EvSend joinCommand (strlen joinCommand) in
  0 <= roomNumber <= 999 ->
  send_ret net (trace s ++ [joinSend])%list = NO_ERROR cfg ->
  Part000.irc_joinRoom cfg net roomNumber s
  = (NO_ERROR cfg, {| currentRoom := roomNumber;
                      trace := (trace s ++ [joinSend])%list |}).
Proof.
  intros joinCommand joinSend Hrange Hok. unfold Part000.irc_joinRoom.
  replace ((roomNumber <? 0) || (roomNumber >? 999)) with false.
  - unfold bind, ret, network_send, set_currentRoom, log.
    cbn [trace currentRoom].
    fold joinCommand. fold joinSend. rewrite Hok, Zeqb_same. reflexivity.
  - symmetry. apply orb_false_iff. split.
    + apply Z.ltb_ge. lia.
    + rewrite Z.gtb_ltb. apply Z.ltb_ge. lia.
Qed.

Lemma leaveRoom_success (cfg : Config) (net : Transport) (s : State) :
  let partCommand :=
    "PART " ++ sprintf_ROOM_FORMAT cfg (currentRoom s) ++ CRLF in
  let partSend := EvSend partCommand (strlen partCommand) in
  0 <= currentRoom s ->
  send_ret net (trace s ++ [partSend])%list = NO_ERROR cfg ->
  Part000.irc_leaveRoom cfg net s
  = (NO_ERROR cfg, {| currentRoom := -1;
                      trace := (trace s ++ [partSend])%list |}).
Proof.
  intros partCommand partSend Hin Hok. unfold Part000.irc_leaveRoom.
  unfold bind, ret, get_currentRoom, network_send, set_currentRoom, log.
  apply Z.ltb_ge in Hin. rewrite Hin. cbn [trace currentRoom].
  fold partCommand. fold partSend. rewrite Hok, Zeqb_same. reflexivity.
Qed.

(** ** Toggling the status of a room *)

Lemma trace_log (e : Event) (s : State) :
  trace (log e s) = (trace s ++ [e])%list.
Proof. reflexivity. Qed.

Lemma currentRoom_log (e : Event) (s : State) :
  currentRoom (log e s) = currentRoom s.
Proof. reflexivity. Qed.

Lemma room_in_range (roomNumber : Z) :
  0 <= roomNumber <= 999 ->
  (roomNumber <? 0) || (roomNumber >? 999) = false.
Proof.
  intros H. apply orb_false_iff. split.
  - apply Z.ltb_ge. lia.
  - rewrite Z.gtb_ltb. apply Z.ltb_ge. lia.
Qed.

(** What the later revision does with the line it reads: it sets the topic
    to PLAYING when the line contains WAITING, to WAITING when it contains
    PLAYING (and not WAITING), and returns [TOGGLE_ROOM_STATUS_ERROR] for
    every other line. *)
Lemma toggleRoomStatus_cases (cfg : Config) (net : Transport)
  (roomNumber : Z) (s : State) (readRet : Z) (recvBuffer : string) :
  let roomName := sprintf_ROOM_FORMAT cfg roomNumber in
  let fetch := EvSend ("TOPIC " ++ roomName ++ CRLF)
                      (strlen ("TOPIC " ++ roomName ++ CRLF)) in
  let setTopic (status : string) :=
    EvSend ("TOPIC " ++ roomName ++ status ++ CRLF)
           (strlen ("TOPIC " ++ roomName ++ status ++ CRLF)) in
  0 <= roomNumber <= 999 ->
  send_ret net (trace s ++ [fetch])%list = NO_ERROR cfg ->
  read_ret net (trace s ++ [fetch; EvRead 512])%list = (readRet, recvBuffer) ->
  0 <= readRet ->
  (strstr recvBuffer "WAITING" <> None ->
   Part000.irc_toggleRoomStatus cfg net roomNumber s
   = (NO_ERROR cfg,
      log (setTopic " PLAYING") (log (EvRead 512) (log fetch s)))) /\
  (strstr recvBuffer "WAITING" = None ->
   strstr recvBuffer "PLAYING" <> None ->
   Part000.irc_toggleRoomStatus cfg net roomNumber s
   = (NO_ERROR cfg,
      log (setTopic " WAITING") (log (EvRead 512) (log fetch s)))) /\
  (strstr recvBuffer "WAITING" = None ->
   strstr recvBuffer "PLAYING" = None ->
   Part000.irc_toggleRoomStatus cfg net roomNumber s
   = (TOGGLE_ROOM_STATUS_ERROR cfg, log (EvRead 512) (log fetch s))).
Proof.
  intros roomName fetch setTopic Hrange Hsend Hread Hret.
  unfold Part000.irc_toggleRoomStatus.
  rewrite room_in_range by assumption.
  unfold bind, ret, network_send, network_read.
  fold roomName. fold fetch.
  rewrite trace_log, Hsend, Zeqb_same. cbn [negb].
  rewrite !trace_log, <- app_assoc. cbn [app]. rewrite Hread.
  apply Z.ltb_ge in Hret. rewrite Hret.
  repeat split.
  - intros Hw. destruct (strstr recvBuffer "WAITING"); [reflexivity|].
    now contradiction Hw.
  - intros Hw Hp. rewrite Hw.
    destruct (strstr recvBuffer "PLAYING"); [reflexivity|].
    now contradiction Hp.
  - intros Hw Hp. rewrite Hw, Hp. reflexivity.
Qed.

(** What the earlier revision does with the line: it only classifies it,
    and the marker of an unset topic is looked for first. *)
Lemma IrcC_toggleRoomStatus_cases (cfg : Config) (net : Transport)
  (roomNumber : Z) (s : State) (recvBuffer : string) :
  let roomName := sprintf_ROOM_FORMAT cfg roomNumber in
  let fetch := EvSend ("TOPIC " ++ roomName ++ CRLF)
                      (strlen ("TOPIC " ++ roomName ++ CRLF)) in
  send_ret net (trace s ++ [fetch])%list = NO_ERROR cfg ->
  read_ret net (trace s ++ [fetch; EvRead 512])%list
    = (NO_ERROR cfg, recvBuffer) ->
  IrcC.irc_toggleRoomStatus cfg net roomNumber s
  = (match strstr recvBuffer ":No topic is set" with
     | Some _ => 0
     | None =>
         match strstr recvBuffer "WAITING" with
         | Some _ => 1
         | None =>
             match strstr recvBuffer "PLAYING" with
             | Some _ => 2
             | None => -1
             end
         end
     end,
     log (EvRead 512) (log fetch s)).
Proof.
  intros roomName fetch Hsend Hread.
  unfold IrcC.irc_toggleRoomStatus.
  unfold bind, ret, network_send, network_read.
  fold roomName. fold fetch.
  rewrite trace_log, Hsend, Zeqb_same. cbn [negb].
  rewrite !trace_log, <- app_assoc. cbn [app].
  rewrite Hread, Zeqb_same. cbn [negb].
  destruct (strstr recvBuffer ":No topic is set"); [reflexivity|].
  destruct (strstr recvBuffer "WAITING"); [reflexivity|].
  destruct (strstr recvBuffer "PLAYING"); reflexivity.
Qed.

(** C1, the failing input. The reply to the fetch for room 0 is the
    server's line for an unset topic. The later revision returns
    [TOGGLE_ROOM_STATUS_ERROR], where the claim and the comment above the
    function have 0 for an unset topic; the earlier revision returns 0.
    Neither sends anything after the fetch. *)
Theorem C1_unset_topic_is_an_error :
  forall cfg : Config,
    let fetch := EvSend ("TOPIC " ++ sprintf_ROOM_FORMAT cfg 0 ++ CRLF)
                   (strlen ("TOPIC " ++ sprintf_ROOM_FORMAT cfg 0 ++ CRLF)) in
    strstr no_topic_reply ":No topic is set" = Some 42 /\
    Part000.irc_toggleRoomStatus cfg (constant_server cfg 58 no_topic_reply)
      0 initial_state
    = (TOGGLE_ROOM_STATUS_ERROR cfg,
       {| currentRoom := -1; trace := [fetch; EvRead 512] |}) /\
    IrcC.irc_toggleRoomStatus cfg
      (constant_server cfg (NO_ERROR cfg) no_topic_reply) 0 initial_state
    = (0, {| currentRoom := -1; trace := [fetch; EvRead 512] |}).
Proof.
  intros cfg fetch. split; [reflexivity|]. split.
  - destruct (toggleRoomStatus_cases cfg (constant_server cfg 58 no_topic_reply)
                0 initial_state 58 no_topic_reply) as (_ & _ & Herr);
      try reflexivity; try lia.
    rewrite Herr; reflexivity.
  - rewrite (IrcC_toggleRoomStatus_cases cfg
               (constant_server cfg (NO_ERROR cfg) no_topic_reply)
               0 initial_state no_topic_reply); reflexivity.
Qed.

(** ** Looking for a free room *)

(** *** The earlier revision: a read-only scan *)

Lemma IrcC_loop_step (cfg : Config) (net : Transport) (n : nat) (i : Z)
  (s : State) :
  IrcC.getAvailableRoom_loop cfg net (S n) i s
  = if fst (IrcC.irc_toggleRoomStatus cfg net i s) =? 0
    then (i, snd (IrcC.irc_toggleRoomStatus cfg net i s))
    else IrcC.getAvailableRoom_loop cfg net n (i + 1)
           (snd (IrcC.irc_toggleRoomStatus cfg net i s)).
Proof.
  cbn [IrcC.getAvailableRoom_loop]. unfold bind at 1.
  destruct (IrcC.irc_toggleRoomStatus cfg net i s) as [isUsed s1].
  cbn [fst snd]. destruct (isUsed =? 0); reflexivity.
Qed.

(** The loop started at room [i] in the state the scan reaches there either
    exhausts its [n] rooms, none of which answered 0, or stops at the first
    room that did. *)
Lemma IrcC_loop_first_zero (cfg : Config) (net : Transport) (s : State) :
  forall (n i : nat),
    let result :=
      IrcC.getAvailableRoom_loop cfg net n (Z.of_nat i)
        (scan_state cfg net s i) in
    (fst result = -1 /\
     (forall j, (i <= j < i + n)%nat -> scan_status cfg net s j <> 0) /\
     snd result = scan_state cfg net s (i + n)) \/
    (exists k, (i <= k < i + n)%nat /\
               fst result = Z.of_nat k /\
               scan_status cfg net s k = 0 /\
               (forall j, (i <= j < k)%nat -> scan_status cfg net s j <> 0) /\
               snd result = scan_state cfg net s (S k)).
Proof.
  induction n as [|n IH]; intros i result.
  - left. subst result. cbn [IrcC.getAvailableRoom_loop]. unfold ret.
    cbn [fst snd]. rewrite Nat.add_0_r. repeat split. intros j Hj. lia.
  - subst result. rewrite IrcC_loop_step.
    fold (scan_status cfg net s i).
    change (snd (IrcC.irc_toggleRoomStatus cfg net (Z.of_nat i)
                   (scan_state cfg net s i)))
      with (scan_state cfg net s (S i)).
    destruct (scan_status cfg net s i =? 0) eqn:Hi.
    + right. exists i. apply Z.eqb_eq in Hi. cbn [fst snd].
      repeat split; try lia; intros j Hj; lia.
    + apply Z.eqb_neq in Hi.
      replace (Z.of_nat i + 1) with (Z.of_nat (S i)) by lia.
      destruct (IH (S i)) as [(Hr & Hall & Hs) | (k & Hk & Hr & Hz & Hall & Hs)].
      * left. repeat split; [exact Hr | | now rewrite Hs; f_equal; lia].
        intros j Hj. destruct (Nat.eq_dec j i) as [->|Hne]; [exact Hi|].
        apply Hall. lia.
      * right. exists k. repeat split; try lia; try assumption.
        intros j Hj. destruct (Nat.eq_dec j i) as [->|Hne]; [exact Hi|].
        apply Hall. lia.
Qed.

(** The earlier revision returns the smallest room whose probe answered 0,
    and -1 exactly when none of the 1000 probes did. *)
Lemma IrcC_getAvailableRoom_smallest (cfg : Config) (net : Transport)
  (s : State) :
  let result := IrcC.irc_getAvailableRoom cfg net s in
  (fst result = -1 /\
   (forall j, (j < 1000)%nat -> scan_status cfg net s j <> 0) /\
   snd result = scan_state cfg net s 1000) \/
  (exists k, (k < 1000)%nat /\
             fst result = Z.of_nat k /\
             scan_status cfg net s k = 0 /\
             (forall j, (j < k)%nat -> scan_status cfg net s j <> 0) /\
             snd result = scan_state cfg net s (S k)).
Proof.
  intros result. subst result. unfold IrcC.irc_getAvailableRoom.
  destruct (IrcC_loop_first_zero cfg net s 1000 0)
    as [(Hr & Hall & Hs) | (k & Hk & Hr & Hz & Hall & Hs)].
  - left. repeat split; [exact Hr | | exact Hs].
    intros j Hj. apply Hall. lia.
  - right. exists k. repeat split; try lia; try assumption.
    intros j Hj. apply Hall. lia.
Qed.

Lemma IrcC_getAvailableRoom_not_found_iff (cfg : Config) (net : Transport)
  (s : State) :
  fst (IrcC.irc_getAvailableRoom cfg net s) = -1 <->
  (forall j, (j < 1000)%nat -> scan_status cfg net s j <> 0).
Proof.
  destruct (IrcC_getAvailableRoom_smallest cfg net s)
    as [(Hr & Hall & _) | (k & Hk & Hr & Hz & _)]; split; intros H.
  - exact Hall.
  - exact Hr.
  - rewrite Hr in H. lia.
  - exfalso. now apply (H k).
Qed.

(** With [NO_ERROR] equal to 0, a probe answers 0 exactly when the fetch was
    sent, the read succeeded and the line has the marker of an unset
    topic. *)
Lemma IrcC_probe_zero_iff_unset (cfg : Config) (net : Transport)
  (roomNumber : Z) (s : State) :
  let roomName := sprintf_ROOM_FORMAT cfg roomNumber in
  let fetch := EvSend ("TOPIC " ++ roomName ++ CRLF)
                      (strlen ("TOPIC " ++ roomName ++ CRLF)) in
  NO_ERROR cfg = 0 ->
  (fst (IrcC.irc_toggleRoomStatus cfg net roomNumber s) = 0 <->
   send_ret net (trace s ++ [fetch])%list = 0 /\
   fst (read_ret net (trace s ++ [fetch; EvRead 512])%list) = 0 /\
   strstr (snd (read_ret net (trace s ++ [fetch; EvRead 512])%list))
          ":No topic is set" <> None).
Proof.
  intros roomName fetch Hno.
  unfold IrcC.irc_toggleRoomStatus, bind, ret, network_send, network_read.
  fold roomName. fold fetch.
  rewrite trace_log, Hno.
  destruct (send_ret net (trace s ++ [fetch])%list =? 0) eqn:Hsend;
    cbn [negb fst].
  - apply Z.eqb_eq in Hsend.
    rewrite !trace_log, <- app_assoc. cbn [app].
    destruct (read_ret net (trace s ++ [fetch; EvRead 512])%list)
      as [readRet recvBuffer]. cbn [fst snd].
    destruct (readRet =? 0) eqn:Hread; cbn [negb fst].
    + apply Z.eqb_eq in Hread.
      destruct (strstr recvBuffer ":No topic is set").
      * cbn [fst]. intuition congruence.
      * destruct (strstr recvBuffer "WAITING");
          [|destruct (strstr recvBuffer "PLAYING")];
          cbn [fst]; intuition (try congruence; try lia).
    + apply Z.eqb_neq in Hread. intuition.
  - apply Z.eqb_neq in Hsend. intuition.
Qed.

(** A probe of the earlier revision adds a topic fetch, and a read when
    the fetch was sent: it never sets a topic. *)
Lemma IrcC_probe_is_read_only (cfg : Config) (net : Transport)
  (roomNumber : Z) (s : State) :
  exists events,
    trace (snd (IrcC.irc_toggleRoomStatus cfg net roomNumber s))
    = (trace s ++ events)%list /\
    Forall (is_fetch cfg) events /\
    currentRoom (snd (IrcC.irc_toggleRoomStatus cfg net roomNumber s))
    = currentRoom s.
Proof.
  unfold IrcC.irc_toggleRoomStatus, bind, ret, network_send, network_read.
  set (fetch := EvSend _ _).
  assert (Hfetch : is_fetch cfg fetch).
  { exists roomNumber. split; reflexivity. }
  destruct (negb (send_ret net (trace (log fetch s)) =? NO_ERROR cfg)).
  - exists [fetch]. cbn [snd]. repeat split. now constructor.
  - destruct (read_ret net (trace (log (EvRead 512) (log fetch s))))
      as [readRet recvBuffer].
    exists [fetch; EvRead 512].
    assert (Hev : Forall (is_fetch cfg) [fetch; EvRead 512]).
    { constructor; [exact Hfetch|]. constructor; [exact I | constructor]. }
    destruct (negb (readRet =? NO_ERROR cfg));
      [|destruct (strstr recvBuffer ":No topic is set");
        [|destruct (strstr recvBuffer "WAITING");
          [|destruct (strstr recvBuffer "PLAYING")]]];
      cbn [snd]; rewrite !trace_log, <- app_assoc; repeat split; exact Hev.
Qed.

Lemma IrcC_scan_is_read_only (cfg : Config) (net : Transport) (s : State) :
  forall i : nat,
    exists events,
      trace (scan_state cfg net s i) = (trace s ++ events)%list /\
      Forall (is_fetch cfg) events /\
      currentRoom (scan_state cfg net s i) = currentRoom s.
Proof.
  induction i as [|i (events & Htrace & Hall & Hroom)].
  - exists []. cbn [scan_state]. rewrite app_nil_r. repeat split. constructor.
  - cbn [scan_state].
    destruct (IrcC_probe_is_read_only cfg net (Z.of_nat i)
                (scan_state cfg net s i)) as (more & Htrace' & Hall' & Hroom').
    exists (events ++ more)%list. rewrite Htrace', Htrace, Hroom', Hroom.
    rewrite app_assoc. repeat split. now apply Forall_app.
Qed.

(** The whole scan of the earlier revision only fetches and reads. *)
Lemma IrcC_getAvailableRoom_is_read_only (cfg : Config) (net : Transport)
  (s : State) :
  exists events,
    trace (snd (IrcC.irc_getAvailableRoom cfg net s))
    = (trace s ++ events)%list /\
    Forall (is_fetch cfg) events /\
    currentRoom (snd (IrcC.irc_getAvailableRoom cfg net s)) = currentRoom s.
Proof.
  destruct (IrcC_getAvailableRoom_smallest cfg net s)
    as [(_ & _ & Hs) | (k & _ & _ & _ & _ & Hs)]; rewrite Hs;
    apply IrcC_scan_is_read_only.
Qed.

(** *** The later revision: the scan toggles what it probes *)

Lemma loop_step (cfg : Config) (net : Transport) (n : nat) (i : Z)
  (s : State) :
  Part000.getAvailableRoom_loop cfg net (S n) i s
  = if fst (Part000.irc_toggleRoomStatus cfg net i s) =? 0
    then (i, snd (Part000.irc_toggleRoomStatus cfg net i s))
    else Part000.getAvailableRoom_loop cfg net n (i + 1)
           (snd (Part000.irc_toggleRoomStatus cfg net i s)).
Proof.
  cbn [Part000.getAvailableRoom_loop]. unfold bind at 1.
  destruct (Part000.irc_toggleRoomStatus cfg net i s) as [isUsed s1].
  cbn [fst snd]. destruct (isUsed =? 0); reflexivity.
Qed.

(** A call of [irc_toggleRoomStatus] only adds to the trace and leaves
    [currentRoom] alone. *)
Lemma toggleRoomStatus_extends (cfg : Config) (net : Transport)
  (roomNumber : Z) (s : State) :
  exists events,
    trace (snd (Part000.irc_toggleRoomStatus cfg net roomNumber s))
    = (trace s ++ events)%list /\
    currentRoom (snd (Part000.irc_toggleRoomStatus cfg net roomNumber s))
    = currentRoom s.
Proof.
  unfold Part000.irc_toggleRoomStatus.
  destruct ((roomNumber <? 0) || (roomNumber >? 999)).
  { exists []. unfold ret. cbn [snd]. now rewrite app_nil_r. }
  unfold bind, ret, network_send, network_read.
  set (fetch := EvSend _ _).
  destruct (negb (send_ret net (trace (log fetch s)) =? NO_ERROR cfg)).
  { exists [fetch]. split; reflexivity. }
  destruct (read_ret net (trace (log (EvRead 512) (log fetch s))))
    as [readRet recvBuffer].
  destruct (readRet <? 0).
  { exists [fetch; EvRead 512]. cbn [snd].
    rewrite !trace_log, <- app_assoc. split; reflexivity. }
  destruct (strstr recvBuffer "WAITING");
    [|destruct (strstr recvBuffer "PLAYING")];
    eexists; cbn [snd]; rewrite !trace_log, <- !app_assoc;
    split; reflexivity.
Qed.

Lemma loop_extends (cfg : Config) (net : Transport) :
  forall (n : nat) (i : Z) (s : State),
    exists events,
      trace (snd (Part000.getAvailableRoom_loop cfg net n i s))
      = (trace s ++ events)%list /\
      currentRoom (snd (Part000.getAvailableRoom_loop cfg net n i s))
      = currentRoom s.
Proof.
  induction n as [|n IH]; intros i s.
  - exists []. cbn [Part000.getAvailableRoom_loop]. unfold ret. cbn [snd].
    now rewrite app_nil_r.
  - rewrite loop_step.
    destruct (toggleRoomStatus_extends cfg net i s) as (ev1 & Ht1 & Hr1).
    destruct (fst (Part000.irc_toggleRoomStatus cfg net i s) =? 0).
    + exists ev1. cbn [snd]. split; assumption.
    + destruct (IH (i + 1) (snd (Part000.irc_toggleRoomStatus cfg net i s)))
        as (ev2 & Ht2 & Hr2).
      exists (ev1 ++ ev2)%list. rewrite Ht2, Ht1, Hr2, Hr1.
      now rewrite app_assoc.
Qed.

Lemma getAvailableRoom_keeps_currentRoom (cfg : Config) (net : Transport)
  (s : State) :
  currentRoom (snd (Part000.irc_getAvailableRoom cfg net s)) = currentRoom s.
Proof.
  unfold Part000.irc_getAvailableRoom.
  destruct (loop_extends cfg net 1000 0 s) as (events & _ & Hroom).
  exact Hroom.
Qed.

(** C2, the failing input. Rooms 0 to 4 are in use (room 0 is WAITING) and
    room 5 is the first whose topic is unset. In the later revision, for any
    values of the constants, the scan starts with the fetch for room 0, the
    read, and a send that sets the topic of room 0 to PLAYING; with
    [NO_ERROR] at 0 it then returns 0, a room in use. The earlier revision
    returns 5 after six fetches and reads. *)
Theorem C2_scan_sets_topic_of_used_room :
  (forall cfg : Config,
      let roomName := sprintf_ROOM_FORMAT cfg 0 in
      let fetch := "TOPIC " ++ roomName ++ CRLF in
      let setTopic := "TOPIC " ++ roomName ++ " PLAYING" ++ CRLF in
      exists rest,
        trace (snd (Part000.irc_getAvailableRoom cfg
                      (constant_server cfg 50 waiting_reply) initial_state))
        = ([EvSend fetch (strlen fetch); EvRead 512;
            EvSend setTopic (strlen setTopic)] ++ rest)%list) /\
  Part000.irc_getAvailableRoom sample_cfg
    (reply_server sample_cfg 50 five_rooms_taken) initial_state
  = (0, {| currentRoom := -1;
           trace := [EvSend ("TOPIC #cruce-game000" ++ CRLF) 22; EvRead 512;
                     EvSend ("TOPIC #cruce-game000 PLAYING" ++ CRLF) 30] |}) /\
  fst (IrcC.irc_getAvailableRoom sample_cfg
         (reply_server sample_cfg 0 five_rooms_taken) initial_state) = 5 /\
  map payload
    (trace (snd (IrcC.irc_getAvailableRoom sample_cfg
                   (reply_server sample_cfg 0 five_rooms_taken)
                   initial_state)))
  = [Some ("TOPIC #cruce-game000" ++ CRLF); None;
     Some ("TOPIC #cruce-game001" ++ CRLF); None;
     Some ("TOPIC #cruce-game002" ++ CRLF); None;
     Some ("TOPIC #cruce-game003" ++ CRLF); None;
     Some ("TOPIC #cruce-game004" ++ CRLF); None;
     Some ("TOPIC #cruce-game005" ++ CRLF); None].
Proof.
  split; [|split; [|split]]; try (vm_compute; reflexivity).
  intros cfg roomName fetch setTopic.
  unfold Part000.irc_getAvailableRoom. rewrite loop_step.
  destruct (toggleRoomStatus_cases cfg (constant_server cfg 50 waiting_reply)
              0 initial_state 50 waiting_reply) as (Hwait & _ & _);
    try reflexivity; try lia.
  rewrite Hwait by (vm_compute; discriminate). cbn [fst snd].
  destruct (NO_ERROR cfg =? 0).
  - exists []. reflexivity.
  - destruct (loop_extends cfg (constant_server cfg 50 waiting_reply) 999
                (0 + 1)
                (log (EvSend ("TOPIC " ++ sprintf_ROOM_FORMAT cfg 0
                                ++ " PLAYING" ++ CRLF)
                        (strlen ("TOPIC " ++ sprintf_ROOM_FORMAT cfg 0
                                   ++ " PLAYING" ++ CRLF)))
                   (log (EvRead 512)
                      (log (EvSend ("TOPIC " ++ sprintf_ROOM_FORMAT cfg 0
                                      ++ CRLF)
                              (strlen ("TOPIC " ++ sprintf_ROOM_FORMAT cfg 0
                                         ++ CRLF)))
                         initial_state)))) as (rest & Htrace & _).
    exists rest. rewrite Htrace. reflexivity.
Qed.

(** ** Creating a room *)

(** C3, as stated, fails. A session that is already in room 3 still has
    its rooms probed before [irc_createRoom] returns -1 (in the later
    revision the probe also sets the topic of room 0), and a call that
    succeeds returns the id while [currentRoom] stays at -1. *)
Lemma C3_createRoom_counterexample :
  currentRoom (in_room 3) <> -1 /\
  Part000.irc_createRoom sample_cfg
    (reply_server sample_cfg 50 five_rooms_taken) (in_room 3)
  = (-1, {| currentRoom := 3;
            trace := [EvSend ("TOPIC #cruce-game000" ++ CRLF) 22; EvRead 512;
                      EvSend ("TOPIC #cruce-game000 PLAYING" ++ CRLF) 30] |}) /\
  trace (snd (Part000.irc_createRoom sample_cfg
                (reply_server sample_cfg 50 five_rooms_taken) (in_room 3)))
  <> trace (in_room 3) /\
  trace (snd (IrcC.irc_createRoom sample_cfg
                (constant_server sample_cfg 0 no_topic_reply) (in_room 3)))
  = [EvSend ("TOPIC #cruce-game000" ++ CRLF) 22; EvRead 512] /\
  fst (IrcC.irc_createRoom sample_cfg
         (reply_server sample_cfg 0 five_rooms_taken) initial_state) = 5 /\
  currentRoom (snd (IrcC.irc_createRoom sample_cfg
                      (reply_server sample_cfg 0 five_rooms_taken)
                      initial_state)) = -1 /\
  fst (Part000.irc_createRoom sample_cfg
         (reply_server sample_cfg 50 five_rooms_taken) initial_state) = 0 /\
  currentRoom (snd (Part000.irc_createRoom sample_cfg
                      (reply_server sample_cfg 50 five_rooms_taken)
                      initial_state)) = -1.
Proof.
  repeat split; try (vm_compute; reflexivity); vm_compute; discriminate.
Qed.

(** C3, amended. [irc_createRoom] first runs [irc_getAvailableRoom],
    whatever the current room is. It returns -1, having done nothing more,
    when no room was found or when the session is in a room. Otherwise it
    sends ["JOIN <channel>"] and then ["TOPIC <channel> WAITING"] for the
    room found, and when both sends return [NO_ERROR] it returns the id of
    that room. *)
Theorem C3_createRoom_probes_then_checks :
  forall (cfg : Config) (net : Transport) (s : State),
    let probe := Part000.irc_getAvailableRoom cfg net s in
    let roomNumber := fst probe in
    let roomName := sprintf_ROOM_FORMAT cfg roomNumber in
    let joinCommand := "JOIN " ++ roomName ++ CRLF in
    let topicCommand := "TOPIC " ++ roomName ++ " WAITING" ++ CRLF in
    let join := EvSend joinCommand (strlen joinCommand) in
    let topic := EvSend topicCommand (strlen topicCommand) in
    (roomNumber = -1 \/ currentRoom s <> -1 ->
     Part000.irc_createRoom cfg net s = (-1, snd probe)) /\
    (roomNumber <> -1 ->
     currentRoom s = -1 ->
     send_ret net (trace (snd probe) ++ [join])%list = NO_ERROR cfg ->
     send_ret net (trace (snd probe) ++ [join; topic])%list = NO_ERROR cfg ->
     fst (Part000.irc_createRoom cfg net s) = roomNumber /\
     trace (snd (Part000.irc_createRoom cfg net s))
     = (trace (snd probe) ++ [join; topic])%list).
Proof.
  intros cfg net s. cbv zeta.
  pose proof (getAvailableRoom_keeps_currentRoom cfg net s) as Hkeep.
  unfold Part000.irc_createRoom. rewrite bind_run.
  destruct (Part000.irc_getAvailableRoom cfg net s) as [roomNumber s1].
  cbn [fst snd] in *.
  split.
  - intros [Hnone | Hin].
    + rewrite Hnone. reflexivity.
    + destruct (roomNumber =? -1); [reflexivity|].
      unfold bind, get_currentRoom, ret. rewrite Hkeep.
      apply Z.eqb_neq in Hin. rewrite Hin. reflexivity.
  - intros Hfound Hfree Hjoin Htopic.
    apply Z.eqb_neq in Hfound. rewrite Hfound.
    unfold bind, get_currentRoom, ret, network_send.
    rewrite Hkeep, Hfree, Zeqb_same. cbn [negb].
    rewrite trace_log, Hjoin, Zeqb_same. cbn [negb].
    change (" " ++ "WAITING" ++ CRLF) with (" WAITING" ++ CRLF).
    rewrite !trace_log, <- app_assoc. cbn [app].
    rewrite Htopic, Zeqb_same. cbn [negb fst snd].
    rewrite !trace_log, <- app_assoc. split; reflexivity.
Qed.

Lemma C3_createRoom_probes_then_checks_witness :
  Part000.irc_createRoom sample_cfg
    (reply_server sample_cfg 50 five_rooms_taken) (in_room 3)
  = (-1, snd (Part000.irc_getAvailableRoom sample_cfg
                (reply_server sample_cfg 50 five_rooms_taken) (in_room 3))) /\
  fst (Part000.irc_createRoom sample_cfg
         (constant_server sample_cfg 50 playing_reply) initial_state)
  = fst (Part000.irc_getAvailableRoom sample_cfg
           (constant_server sample_cfg 50 playing_reply) initial_state).
Proof.
  split.
  - apply (C3_createRoom_probes_then_checks sample_cfg
             (reply_server sample_cfg 50 five_rooms_taken) (in_room 3)).
    right. discriminate.
  - apply (C3_createRoom_probes_then_checks sample_cfg
             (constant_server sample_cfg 50 playing_reply) initial_state).
    + vm_compute. discriminate.
    + reflexivity.
    + reflexivity.
    + reflexivity.
Defined.

(** ** The names of a channel and invitations *)

(** Asking for the names of the room fails with NULL when no room is
    joined, and nothing is sent. *)
Lemma getNames_not_in_room (cfg : Config) (net : Transport) (isRoom : Z)
  (s : State) :
  isRoom <> 0 -> currentRoom s = -1 ->
  Part000.irc_getNames cfg net isRoom s = (Normal None, s).
Proof.
  intros HisRoom Hnone. unfold Part000.irc_getNames.
  rewrite bind_run. unfold get_currentRoom. cbn [fst snd].
  apply Z.eqb_neq in HisRoom. rewrite HisRoom, Hnone. reflexivity.
Qed.

(** Once the command is sent and a line is read, the result is the line
    from its first [':'] on, the [':'] included; a line without [':'] makes
    [strlen] and [strcpy] run on NULL. *)
Lemma getNames_result (cfg : Config) (net : Transport) (isRoom : Z)
  (s : State) (readRet : Z) (buffer : string) :
  let channel :=
    if negb (isRoom =? 0) then sprintf_ROOM_FORMAT cfg (currentRoom s)
    else LOBBY_CHANNEL cfg in
  let names := EvSend ("NAMES " ++ channel ++ CRLF)
                      (strlen ("NAMES " ++ channel ++ CRLF)) in
  (isRoom = 0 \/ currentRoom s <> -1) ->
  send_ret net (trace s ++ [names])%list = NO_ERROR cfg ->
  read_ret net (trace s ++ [names; EvRead 512])%list = (readRet, buffer) ->
  0 <= readRet ->
  Part000.irc_getNames cfg net isRoom s
  = (match strchr buffer ":" with
     | None => Undefined
     | Some namesListStart =>
         Normal (Some (drop (Z.to_nat namesListStart) buffer))
     end,
     log (EvRead 512) (log names s)).
Proof.
  intros channel names Hscope Hsend Hread Hret.
  unfold Part000.irc_getNames.
  rewrite bind_run. unfold get_currentRoom. cbn [fst snd].
  assert (Hguard : negb (isRoom =? 0) && (currentRoom s =? -1) = false).
  { destruct Hscope as [-> | Hin]; [reflexivity|].
    apply Z.eqb_neq in Hin. rewrite Hin. apply andb_false_r. }
  rewrite Hguard.
  assert (Hcmd :
    (if negb (isRoom =? 0)
     then "NAMES " ++ sprintf_ROOM_FORMAT cfg (currentRoom s) ++ CRLF
     else "NAMES " ++ LOBBY_CHANNEL cfg ++ CRLF)
    = "NAMES " ++ channel ++ CRLF).
  { unfold channel. destruct (negb (isRoom =? 0)); reflexivity. }
  rewrite Hcmd. subst names.
  rewrite bind_run. unfold network_send at 1 2. cbn [fst snd].
  rewrite trace_log, Hsend, Zeqb_same. cbn [negb].
  rewrite bind_run. unfold network_read. cbn [fst snd].
  rewrite !trace_log, <- app_assoc. cbn [app]. rewrite Hread.
  apply Z.ltb_ge in Hret. rewrite Hret.
  destruct (strchr buffer ":"); reflexivity.
Qed.

(** [irc_invite] sends the invitation as soon as the nickname occurs
    anywhere in the text of the names, as a substring. *)
Lemma invite_sends_on_substring (cfg : Config) (net : Transport)
  (nickname : string) (s : State) (readRet : Z) (buffer : string)
  (colon : Z) :
  let names := EvSend ("NAMES " ++ LOBBY_CHANNEL cfg ++ CRLF)
                      (strlen ("NAMES " ++ LOBBY_CHANNEL cfg ++ CRLF)) in
  let inviteCommand :=
    "INVITE " ++ sprintf_ROOM_FORMAT cfg (currentRoom s) ++ " "
      ++ nickname ++ CRLF in
  let invite := EvSend inviteCommand (strlen inviteCommand) in
  currentRoom s <> -1 ->
  send_ret net (trace s ++ [names])%list = NO_ERROR cfg ->
  read_ret net (trace s ++ [names; EvRead 512])%list = (readRet, buffer) ->
  0 <= readRet ->
  strchr buffer ":" = Some colon ->
  strstr (drop (Z.to_nat colon) buffer) nickname <> None ->
  send_ret net (trace s ++ [names; EvRead 512; invite])%list = NO_ERROR cfg ->
  Part000.irc_invite cfg net nickname s
  = (Normal 0, log invite (log (EvRead 512) (log names s))).
Proof.
  intros names inviteCommand invite Hin Hsend Hread Hret Hcolon Hsub Hinv.
  unfold Part000.irc_invite.
  rewrite bind_run. unfold get_currentRoom. cbn [fst snd].
  apply Z.eqb_neq in Hin. rewrite Hin.
  rewrite bind_run.
  rewrite (getNames_result cfg net 0 s readRet buffer)
    by (auto; cbn [Z.eqb negb]; assumption).
  cbn [Z.eqb negb fst snd]. fold names. rewrite Hcolon.
  destruct (strstr (drop (Z.to_nat colon) buffer) nickname);
    [|now contradiction Hsub].
  rewrite bind_run. unfold network_send. cbn [fst snd currentRoom log].
  fold inviteCommand. fold invite.
  rewrite !trace_log, <- !app_assoc. cbn [app].
  rewrite Hinv, Zeqb_same. reflexivity.
Qed.

(** C4, the failing input. The session is in room 3 and the lobby holds
    alice and bob. ["ali"] is none of the names, yet it occurs inside
    ["alice"]: [irc_invite "ali"] returns 0 and sends the invitation, where
    the claim has it fail with [NotInLobby] (-3). *)
Theorem C4_invite_matches_substring :
  forall cfg : Config,
    let reply := "Users on #cruce-lobby: alice bob" in
    let namesCommand := "NAMES " ++ LOBBY_CHANNEL cfg ++ CRLF in
    let inviteCommand :=
      "INVITE " ++ sprintf_ROOM_FORMAT cfg 3 ++ " " ++ "ali" ++ CRLF in
    spec_names_list reply = Some ["alice"; "bob"] /\
    ~ In "ali" ["alice"; "bob"] /\
    Part000.irc_invite cfg (constant_server cfg 32 reply) "ali" (in_room 3)
    = (Normal 0,
       {| currentRoom := 3;
          trace := [EvSend namesCommand (strlen namesCommand); EvRead 512;
                    EvSend inviteCommand (strlen inviteCommand)] |}).
Proof.
  intros cfg reply namesCommand inviteCommand.
  split; [reflexivity|]. split.
  - intros [H | [H | []]]; discriminate.
  - rewrite (invite_sends_on_substring cfg (constant_server cfg 32 reply)
               "ali" (in_room 3) 32 reply 21);
      try reflexivity; try lia; discriminate.
Qed.

(** C9, the failing input. The line read has no [':']: [strchr] returns
    NULL and the function goes on to [strlen] and [strcpy] with it, where
    the claim has a [ProtocolError]. On a line with a [':'] the text
    returned begins with that [':'], so its first token is [":alice"], not
    ["alice"]. *)
Theorem C9_getNames_without_colon :
  forall cfg : Config,
    strchr "ERROR Closing link" ":" = None /\
    spec_names_list "ERROR Closing link" = None /\
    fst (Part000.irc_getNames cfg
           (constant_server cfg 18 "ERROR Closing link") 0 initial_state)
    = Undefined /\
    fst (Part000.irc_getNames cfg
           (constant_server cfg 37 "Users on #cruce-lobby:alice bob carol")
           0 initial_state)
    = Normal (Some ":alice bob carol") /\
    tokens ":alice bob carol" = [":alice"; "bob"; "carol"] /\
    spec_names_list "Users on #cruce-lobby:alice bob carol"
    = Some ["alice"; "bob"; "carol"].
Proof.
  intros cfg. repeat split.
  - rewrite (getNames_result cfg
               (constant_server cfg 18 "ERROR Closing link") 0 initial_state
               18 "ERROR Closing link"); try reflexivity; auto; lia.
  - rewrite (getNames_result cfg
               (constant_server cfg 37 "Users on #cruce-lobby:alice bob carol")
               0 initial_state 37 "Users on #cruce-lobby:alice bob carol");
      try reflexivity; auto; lia.
Qed.

(** * Further properties of the two revisions *)

(** Runs a function of the client down to the calls of the transport. *)
Ltac run :=
  unfold bind, ret, get_currentRoom, set_currentRoom, network_send,
    network_read, network_connect, network_disconnect, network_readLine;
  cbv beta iota zeta.

(** ** Leaving the session *)

(** X1. [irc_disconnect] sends ["QUIT"]. If that send fails its code is
    returned and the connection is not closed; if it succeeds the
    connection is closed and the result is what closing returned. In both
    cases [currentRoom] keeps its value: disconnecting does not leave the
    room. *)
Theorem X1_disconnect_quit_then_close :
  forall (cfg : Config) (net : Transport) (s : State),
    let quit := EvSend ("QUIT" ++ CRLF) 6 in
    (send_ret net (trace s ++ [quit])%list <> NO_ERROR cfg ->
     Part000.irc_disconnect cfg net s
     = (send_ret net (trace s ++ [quit])%list, log quit s)) /\
    (send_ret net (trace s ++ [quit])%list = NO_ERROR cfg ->
     Part000.irc_disconnect cfg net s
     = (disconnect_ret net (trace s ++ [quit; EvDisconnect])%list,
        log EvDisconnect (log quit s))) /\
    currentRoom (snd (Part000.irc_disconnect cfg net s)) = currentRoom s /\
    payload quit = Some ("QUIT" ++ CRLF).
Proof.
  intros cfg net s quit. unfold Part000.irc_disconnect. run.
  fold quit. rewrite trace_log.
  destruct (send_ret net (trace s ++ [quit])%list =? NO_ERROR cfg) eqn:Hsend;
    cbn [negb]; cbv beta iota.
  - apply Z.eqb_eq in Hsend. rewrite !trace_log, <- app_assoc. cbn [app].
    destruct (disconnect_ret net (trace s ++ [quit; EvDisconnect])%list
              =? NO_ERROR cfg) eqn:Hclose; cbn [negb]; cbv beta iota;
      repeat split; try (intros Hfail; contradiction); intros _.
    apply Z.eqb_eq in Hclose. now rewrite Hclose.
  - apply Z.eqb_neq in Hsend. repeat split. intros Hok. contradiction.
Qed.

Lemma X1_disconnect_quit_then_close_witness :
  Part000.irc_disconnect sample_cfg (failing_send_server sample_cfg (-7))
    (in_room 4)
  = (-7, {| currentRoom := 4; trace := [EvSend ("QUIT" ++ CRLF) 6] |}) /\
  Part000.irc_disconnect sample_cfg (constant_server sample_cfg 0 EmptyString)
    (in_room 4)
  = (0, {| currentRoom := 4;
           trace := [EvSend ("QUIT" ++ CRLF) 6; EvDisconnect] |}).
Proof.
  split.
  - apply (X1_disconnect_quit_then_close sample_cfg
             (failing_send_server sample_cfg (-7)) (in_room 4)).
    discriminate.
  - apply (X1_disconnect_quit_then_close sample_cfg
             (constant_server sample_cfg 0 EmptyString) (in_room 4)).
    reflexivity.
Defined.

(** ** Messages to the lobby *)

(** X2. A message of more than 512 characters is refused with
    [MESSAGE_TOO_LONG] and nothing is sent. Any other message, the empty one
    and one of exactly 512 characters included, goes out in one send of
    ["PRIVMSG <lobby> <message>"] and CR LF in full, the result being the
    code of that send; the line sent is 11 characters longer than lobby and
    message together, so it can exceed 512 bytes. *)
Theorem X2_lobby_message_length_check :
  forall (cfg : Config) (net : Transport) (tooLong : Z) (message : string)
         (s : State),
    let command := "PRIVMSG " ++ LOBBY_CHANNEL cfg ++ " " ++ message ++ CRLF in
    let send := EvSend command (strlen command) in
    (512 < strlen message ->
     Part000.irc_sendLobbyMessage cfg net tooLong message s = (tooLong, s)) /\
    (strlen message <= 512 ->
     Part000.irc_sendLobbyMessage cfg net tooLong message s
     = (send_ret net (trace s ++ [send])%list, log send s)) /\
    payload send = Some command /\
    strlen command = strlen (LOBBY_CHANNEL cfg) + strlen message + 11.
Proof.
  intros cfg net tooLong message s command send.
  unfold Part000.irc_sendLobbyMessage. repeat split.
  - intros Hlong. rewrite Z.gtb_ltb.
    apply Z.ltb_lt in Hlong. rewrite Hlong. reflexivity.
  - intros Hshort. rewrite Z.gtb_ltb.
    apply Z.ltb_ge in Hshort. rewrite Hshort. reflexivity.
  - unfold send, payload, strlen. rewrite Nat2Z.id.
    now rewrite substring_whole.
  - unfold command. rewrite !strlen_app.
    change (strlen "PRIVMSG ") with 8. change (strlen " ") with 1.
    change (strlen CRLF) with 2. lia.
Qed.

Lemma X2_lobby_message_length_check_witness :
  Part000.irc_sendLobbyMessage sample_cfg
    (constant_server sample_cfg 0 EmptyString) (-21) "hello" initial_state
  = (0, {| currentRoom := -1;
           trace := [EvSend ("PRIVMSG #cruce-lobby hello" ++ CRLF) 28] |}).
Proof.
  apply (X2_lobby_message_length_check sample_cfg
           (constant_server sample_cfg 0 EmptyString) (-21) "hello"
           initial_state).
  vm_compute. discriminate.
Defined.

(** ** Calls that are refused *)

Lemma room_out_of_range (roomNumber : Z) :
  roomNumber < 0 \/ 999 < roomNumber ->
  (roomNumber <? 0) || (roomNumber >? 999) = true.
Proof.
  intros [H | H]; apply orb_true_iff.
  - left. now apply Z.ltb_lt.
  - right. rewrite Z.gtb_ltb. now apply Z.ltb_lt.
Qed.

(** X3. Every check the functions make on their arguments or on the
    session comes before any call of the transport: a room number outside
    0..999 given to [irc_joinRoom] or [irc_toggleRoomStatus], [irc_leaveRoom]
    or [irc_invite] without a room, and [irc_getNames] for the room without
    a room all return their error in the state they were called in. *)
Theorem X3_refused_calls_do_nothing :
  forall (cfg : Config) (net : Transport) (s : State),
    (forall roomNumber, roomNumber < 0 \/ 999 < roomNumber ->
       Part000.irc_joinRoom cfg net roomNumber s
       = (PARAMETER_OUT_OF_RANGE cfg, s)) /\
    (forall roomNumber, roomNumber < 0 \/ 999 < roomNumber ->
       Part000.irc_toggleRoomStatus cfg net roomNumber s
       = (PARAMETER_OUT_OF_RANGE cfg, s)) /\
    (currentRoom s < 0 ->
       Part000.irc_leaveRoom cfg net s = (LEAVE_ROOM_ERROR cfg, s)) /\
    (currentRoom s = -1 ->
       forall nickname,
         Part000.irc_invite cfg net nickname s = (Normal (-1), s)) /\
    (currentRoom s = -1 ->
       forall isRoom, isRoom <> 0 ->
         Part000.irc_getNames cfg net isRoom s = (Normal None, s)).
Proof.
  intros cfg net s. repeat split.
  - intros roomNumber Hout. unfold Part000.irc_joinRoom.
    now rewrite room_out_of_range.
  - intros roomNumber Hout. unfold Part000.irc_toggleRoomStatus.
    now rewrite room_out_of_range.
  - intros Hnone. unfold Part000.irc_leaveRoom. run.
    apply Z.ltb_lt in Hnone. now rewrite Hnone.
  - intros Hnone nickname. unfold Part000.irc_invite. run.
    now rewrite Hnone.
  - intros Hnone isRoom HisRoom. now apply getNames_not_in_room.
Qed.

Lemma X3_refused_calls_do_nothing_witness :
  Part000.irc_joinRoom sample_cfg (constant_server sample_cfg 0 EmptyString)
    1000 initial_state
  = (-23, initial_state) /\
  Part000.irc_leaveRoom sample_cfg (constant_server sample_cfg 0 EmptyString)
    initial_state
  = (-24, initial_state) /\
  Part000.irc_invite sample_cfg (constant_server sample_cfg 0 EmptyString)
    "bob" initial_state
  = (Normal (-1), initial_state).
Proof.
  destruct (X3_refused_calls_do_nothing sample_cfg
              (constant_server sample_cfg 0 EmptyString) initial_state)
    as (Hjoin & _ & Hleave & Hinvite & _).
  split; [|split].
  - apply Hjoin. right. reflexivity.
  - apply Hleave. reflexivity.
  - apply Hinvite. reflexivity.
Defined.

(** ** Joining, then leaving *)

(** X4. Joining a room and then leaving, both sends succeeding, brings
    [currentRoom] back to -1, whatever it was before, and the ["PART"] that
    goes out names the channel that was joined. Joining does not leave the
    room the session was in: only the ["JOIN"] is sent. *)
Theorem X4_join_then_leave :
  forall (cfg : Config) (net : Transport) (roomNumber : Z) (s : State),
    let roomName := sprintf_ROOM_FORMAT cfg roomNumber in
    let join := EvSend ("JOIN " ++ roomName ++ CRLF)
                       (strlen ("JOIN " ++ roomName ++ CRLF)) in
    let part := EvSend ("PART " ++ roomName ++ CRLF)
                       (strlen ("PART " ++ roomName ++ CRLF)) in
    0 <= roomNumber <= 999 ->
    send_ret net (trace s ++ [join])%list = NO_ERROR cfg ->
    send_ret net (trace s ++ [join; part])%list = NO_ERROR cfg ->
    Part000.irc_joinRoom cfg net roomNumber s
    = (NO_ERROR cfg, {| currentRoom := roomNumber;
                        trace := (trace s ++ [join])%list |}) /\
    (_ <- Part000.irc_joinRoom cfg net roomNumber ;;
     Part000.irc_leaveRoom cfg net) s
    = (NO_ERROR cfg, {| currentRoom := -1;
                        trace := (trace s ++ [join; part])%list |}).
Proof.
  intros cfg net roomNumber s roomName join part Hrange Hjoin Hpart.
  pose proof (joinRoom_success cfg net roomNumber s Hrange Hjoin) as Hj.
  cbv zeta in Hj. fold roomName in Hj. fold join in Hj.
  split; [exact Hj|].
  rewrite bind_run, Hj. cbn [fst snd].
  rewrite (leaveRoom_success cfg net
             {| currentRoom := roomNumber;
                trace := (trace s ++ [join])%list |}).
  - cbn [currentRoom trace]. rewrite <- app_assoc. reflexivity.
  - cbn [currentRoom]. lia.
  - cbn [currentRoom trace]. rewrite <- app_assoc. exact Hpart.
Qed.

Lemma X4_join_then_leave_witness :
  (_ <- Part000.irc_joinRoom sample_cfg
          (constant_server sample_cfg 0 EmptyString) 12 ;;
   Part000.irc_leaveRoom sample_cfg
     (constant_server sample_cfg 0 EmptyString)) (in_room 7)
  = (0, {| currentRoom := -1;
           trace := [EvSend ("JOIN #cruce-game012" ++ CRLF) 21;
                     EvSend ("PART #cruce-game012" ++ CRLF) 21] |}).
Proof.
  apply (X4_join_then_leave sample_cfg
           (constant_server sample_cfg 0 EmptyString) 12 (in_room 7)).
  - lia.
  - reflexivity.
  - reflexivity.
Defined.

(** ** The current room *)

(** Splits a run on every test it makes. *)
Ltac cases :=
  repeat (match goal with
          | |- context [if ?b then _ else _] => destruct b
          | |- context [match ?x with _ => _ end] => destruct x
          end; cbv beta iota).

Lemma connect_keeps_currentRoom (cfg : Config) (net : Transport)
  (name : string) (s : State) :
  currentRoom (snd (Part000.irc_connect cfg net name s)) = currentRoom s.
Proof. unfold Part000.irc_connect. run. cases; reflexivity. Qed.

Lemma sendLobbyMessage_keeps_currentRoom (cfg : Config) (net : Transport)
  (tooLong : Z) (message : string) (s : State) :
  currentRoom (snd (Part000.irc_sendLobbyMessage cfg net tooLong message s))
  = currentRoom s.
Proof. unfold Part000.irc_sendLobbyMessage. run. cases; reflexivity. Qed.

Lemma getNames_keeps_currentRoom (cfg : Config) (net : Transport)
  (isRoom : Z) (s : State) :
  currentRoom (snd (Part000.irc_getNames cfg net isRoom s)) = currentRoom s.
Proof. unfold Part000.irc_getNames. run. cases; reflexivity. Qed.

Lemma invite_keeps_currentRoom (cfg : Config) (net : Transport)
  (nickname : string) (s : State) :
  currentRoom (snd (Part000.irc_invite cfg net nickname s)) = currentRoom s.
Proof.
  unfold Part000.irc_invite. rewrite bind_run.
  unfold get_currentRoom. cbn [fst snd].
  destruct (currentRoom s =? -1); [reflexivity|].
  rewrite bind_run.
  pose proof (getNames_keeps_currentRoom cfg net 0 s) as Hnames.
  destruct (Part000.irc_getNames cfg net 0 s) as [[[names|]|] s1];
    cbn [fst snd] in *; try exact Hnames.
  destruct (strstr names nickname); [|exact Hnames].
  run. cases; exact Hnames.
Qed.

Lemma createRoom_keeps_currentRoom (cfg : Config) (net : Transport)
  (s : State) :
  currentRoom (snd (Part000.irc_createRoom cfg net s)) = currentRoom s.
Proof.
  unfold Part000.irc_createRoom. rewrite bind_run.
  pose proof (getAvailableRoom_keeps_currentRoom cfg net s) as Hprobe.
  destruct (Part000.irc_getAvailableRoom cfg net s) as [roomNumber s1].
  cbn [fst snd] in *.
  destruct (roomNumber =? -1); [exact Hprobe|].
  run. cases; exact Hprobe.
Qed.

Lemma room_ok_of_same (s s' : State) :
  currentRoom s' = currentRoom s -> room_ok s -> room_ok s'.
Proof. unfold room_ok. intros ->. exact (fun H => H). Qed.

(** X5. [currentRoom] is always -1 or a room number between 0 and 999: no
    function of the client takes a session out of that set. Only
    [irc_joinRoom] and [irc_leaveRoom] write it at all. So the test
    [currentRoom < 0] of [irc_leaveRoom] and the test [currentRoom == -1] of
    the other functions never disagree. *)
Theorem X5_currentRoom_stays_a_room :
  forall (cfg : Config) (net : Transport) (s : State),
    room_ok s ->
    (forall name, room_ok (snd (Part000.irc_connect cfg net name s))) /\
    room_ok (snd (Part000.irc_disconnect cfg net s)) /\
    (forall roomNumber,
        room_ok (snd (Part000.irc_joinRoom cfg net roomNumber s))) /\
    room_ok (snd (Part000.irc_leaveRoom cfg net s)) /\
    (forall tooLong message,
        room_ok (snd (Part000.irc_sendLobbyMessage cfg net tooLong message s)))
    /\
    (forall roomNumber,
        room_ok (snd (Part000.irc_toggleRoomStatus cfg net roomNumber s))) /\
    room_ok (snd (Part000.irc_getAvailableRoom cfg net s)) /\
    room_ok (snd (Part000.irc_createRoom cfg net s)) /\
    (forall isRoom, room_ok (snd (Part000.irc_getNames cfg net isRoom s))) /\
    (forall nickname,
        room_ok (snd (Part000.irc_invite cfg net nickname s))) /\
    room_ok (snd (Part000.getNextMessage cfg net s)) /\
    (currentRoom s < 0 <-> currentRoom s = -1).
Proof.
  intros cfg net s Hok. repeat split.
  - intros name.
    exact (room_ok_of_same _ _ (connect_keeps_currentRoom cfg net name s) Hok).
  - refine (room_ok_of_same _ _ _ Hok).
    unfold Part000.irc_disconnect. run. cases; reflexivity.
  - intros roomNumber. unfold Part000.irc_joinRoom.
    destruct ((roomNumber <? 0) || (roomNumber >? 999)) eqn:Hrange;
      [exact Hok|].
    run. cases; [exact Hok|].
    right. cbn [snd currentRoom].
    apply orb_false_iff in Hrange. destruct Hrange as [Hlo Hhi].
    apply Z.ltb_ge in Hlo. rewrite Z.gtb_ltb in Hhi. apply Z.ltb_ge in Hhi.
    lia.
  - unfold Part000.irc_leaveRoom. run. cases; try exact Hok.
    left. reflexivity.
  - intros tooLong message.
    exact (room_ok_of_same _ _
             (sendLobbyMessage_keeps_currentRoom cfg net tooLong message s)
             Hok).
  - intros roomNumber.
    destruct (toggleRoomStatus_extends cfg net roomNumber s)
      as (events & _ & Hkeep).
    exact (room_ok_of_same _ _ Hkeep Hok).
  - exact (room_ok_of_same _ _
             (getAvailableRoom_keeps_currentRoom cfg net s) Hok).
  - exact (room_ok_of_same _ _ (createRoom_keeps_currentRoom cfg net s) Hok).
  - intros isRoom.
    exact (room_ok_of_same _ _
             (getNames_keeps_currentRoom cfg net isRoom s) Hok).
  - intros nickname.
    exact (room_ok_of_same _ _
             (invite_keeps_currentRoom cfg net nickname s) Hok).
  - exact Hok.
  - unfold room_ok in Hok. lia.
  - intros ->. lia.
Qed.

Lemma X5_currentRoom_stays_a_room_witness :
  room_ok (in_room 7) /\
  room_ok (snd (Part000.irc_joinRoom sample_cfg
                  (constant_server sample_cfg 0 EmptyString) 999
                  (in_room 7))) /\
  room_ok (snd (Part000.irc_leaveRoom sample_cfg
                  (constant_server sample_cfg 0 EmptyString) (in_room 7))).
Proof.
  assert (Hok : room_ok (in_room 7)) by (right; cbn; lia).
  destruct (X5_currentRoom_stays_a_room sample_cfg
              (constant_server sample_cfg 0 EmptyString) (in_room 7) Hok)
    as (_ & _ & Hjoin & Hleave & _).
  split; [exact Hok | split; [apply Hjoin | exact Hleave]].
Defined.

(** X6. [irc_createRoom] never writes [currentRoom], not even when it
    returns the number of the room it joined. A session that was in no room
    is still in none after a successful call, and the [irc_invite] that
    follows is refused with -1 before anything is sent. *)
Theorem X6_createRoom_leaves_session_outside :
  forall (cfg : Config) (net : Transport) (s : State) (nickname : string),
    currentRoom (snd (Part000.irc_createRoom cfg net s)) = currentRoom s /\
    (currentRoom s = -1 ->
     (_ <- Part000.irc_createRoom cfg net ;;
      Part000.irc_invite cfg net nickname) s
     = (Normal (-1), snd (Part000.irc_createRoom cfg net s))).
Proof.
  intros cfg net s nickname.
  pose proof (createRoom_keeps_currentRoom cfg net s) as Hkeep.
  split; [exact Hkeep|].
  intros Hnone. rewrite bind_run.
  unfold Part000.irc_invite. rewrite bind_run.
  unfold get_currentRoom. cbn [fst snd].
  rewrite Hkeep, Hnone. reflexivity.
Qed.

Lemma X6_createRoom_leaves_session_outside_witness :
  fst (Part000.irc_createRoom sample_cfg
         (constant_server sample_cfg 50 playing_reply) initial_state) = 0 /\
  (_ <- Part000.irc_createRoom sample_cfg
          (constant_server sample_cfg 50 playing_reply) ;;
   Part000.irc_invite sample_cfg
     (constant_server sample_cfg 50 playing_reply) "bob") initial_state
  = (Normal (-1),
     snd (Part000.irc_createRoom sample_cfg
            (constant_server sample_cfg 50 playing_reply) initial_state)).
Proof.
  split; [reflexivity|].
  apply (X6_createRoom_leaves_session_outside sample_cfg
           (constant_server sample_cfg 50 playing_reply) initial_state "bob").
  reflexivity.
Defined.

(** ** Toggling, in full *)

(** X7. When the fetch of [irc_toggleRoomStatus] cannot be sent, the code
    of the send is returned and nothing is read; when the read returns a
    negative code, that code is returned and no topic is set. *)
Theorem X7_toggle_transport_errors :
  forall (cfg : Config) (net : Transport) (roomNumber : Z) (s : State),
    let roomName := sprintf_ROOM_FORMAT cfg roomNumber in
    let fetch := EvSend ("TOPIC " ++ roomName ++ CRLF)
                        (strlen ("TOPIC " ++ roomName ++ CRLF)) in
    0 <= roomNumber <= 999 ->
    (send_ret net (trace s ++ [fetch])%list <> NO_ERROR cfg ->
     Part000.irc_toggleRoomStatus cfg net roomNumber s
     = (send_ret net (trace s ++ [fetch])%list, log fetch s)) /\
    (send_ret net (trace s ++ [fetch])%list = NO_ERROR cfg ->
     fst (read_ret net (trace s ++ [fetch; EvRead 512])%list) < 0 ->
     Part000.irc_toggleRoomStatus cfg net roomNumber s
     = (fst (read_ret net (trace s ++ [fetch; EvRead 512])%list),
        log (EvRead 512) (log fetch s))).
Proof.
  intros cfg net roomNumber s roomName fetch Hrange.
  unfold Part000.irc_toggleRoomStatus.
  rewrite room_in_range by assumption. run.
  fold roomName. fold fetch. rewrite trace_log. split.
  - intros Hfail. apply Z.eqb_neq in Hfail. rewrite Hfail. reflexivity.
  - intros Hsend Hread. rewrite Hsend, Zeqb_same. cbn [negb]. cbv beta.
    rewrite !trace_log, <- app_assoc. cbn [app].
    destruct (read_ret net (trace s ++ [fetch; EvRead 512])%list)
      as [readRet recvBuffer]. cbn [fst] in *.
    apply Z.ltb_lt in Hread. rewrite Hread. reflexivity.
Qed.

Lemma X7_toggle_transport_errors_witness :
  Part000.irc_toggleRoomStatus sample_cfg
    (failing_send_server sample_cfg (-7)) 3 initial_state
  = (-7, {| currentRoom := -1;
            trace := [EvSend ("TOPIC #cruce-game003" ++ CRLF) 22] |}) /\
  Part000.irc_toggleRoomStatus sample_cfg
    (constant_server sample_cfg (-9) EmptyString) 3 initial_state
  = (-9, {| currentRoom := -1;
            trace := [EvSend ("TOPIC #cruce-game003" ++ CRLF) 22;
                      EvRead 512] |}).
Proof.
  split.
  - apply (X7_toggle_transport_errors sample_cfg
             (failing_send_server sample_cfg (-7)) 3 initial_state).
    + lia.
    + discriminate.
  - apply (X7_toggle_transport_errors sample_cfg
             (constant_server sample_cfg (-9) EmptyString) 3 initial_state).
    + lia.
    + reflexivity.
    + reflexivity.
Defined.

(** X8. For a room in 0..999 whose fetch was sent and whose line was read,
    [irc_toggleRoomStatus] of the later revision sets the topic to PLAYING
    when the line contains WAITING (also when it contains PLAYING as well),
    to WAITING when it contains PLAYING only, and in both cases returns
    [NO_ERROR] whatever the send of the new topic returned. For any other
    line it returns [TOGGLE_ROOM_STATUS_ERROR] and sends nothing more. *)
Theorem X8_toggle_flips_and_ignores_send_result :
  forall (cfg : Config) (net : Transport) (roomNumber : Z) (s : State)
         (readRet : Z) (recvBuffer : string),
    let roomName := sprintf_ROOM_FORMAT cfg roomNumber in
    let fetch := EvSend ("TOPIC " ++ roomName ++ CRLF)
                        (strlen ("TOPIC " ++ roomName ++ CRLF)) in
    let setTopic (status : string) :=
      EvSend ("TOPIC " ++ roomName ++ status ++ CRLF)
             (strlen ("TOPIC " ++ roomName ++ status ++ CRLF)) in
    0 <= roomNumber <= 999 ->
    send_ret net (trace s ++ [fetch])%list = NO_ERROR cfg ->
    read_ret net (trace s ++ [fetch; EvRead 512])%list
      = (readRet, recvBuffer) ->
    0 <= readRet ->
    (strstr recvBuffer "WAITING" <> None ->
     Part000.irc_toggleRoomStatus cfg net roomNumber s
     = (NO_ERROR cfg,
        log (setTopic " PLAYING") (log (EvRead 512) (log fetch s)))) /\
    (strstr recvBuffer "WAITING" = None ->
     strstr recvBuffer "PLAYING" <> None ->
     Part000.irc_toggleRoomStatus cfg net roomNumber s
     = (NO_ERROR cfg,
        log (setTopic " WAITING") (log (EvRead 512) (log fetch s)))) /\
    (strstr recvBuffer "WAITING" = None ->
     strstr recvBuffer "PLAYING" = None ->
     Part000.irc_toggleRoomStatus cfg net roomNumber s
     = (TOGGLE_ROOM_STATUS_ERROR cfg, log (EvRead 512) (log fetch s))).
Proof.
  intros cfg net roomNumber s readRet recvBuffer.
  exact (toggleRoomStatus_cases cfg net roomNumber s readRet recvBuffer).
Qed.

Lemma X8_toggle_flips_and_ignores_send_result_witness :
  Part000.irc_toggleRoomStatus sample_cfg
    {| connect_ret := fun _ => 0;
       send_ret := fun t => if (Nat.leb (List.length t) 1) then 0 else -7;
       read_ret := fun _ => (40, "332 alice #cruce-game003 :PLAYING");
       readLine_ret := fun _ => EmptyString;
       disconnect_ret := fun _ => 0 |}
    3 initial_state
  = (0, {| currentRoom := -1;
           trace := [EvSend ("TOPIC #cruce-game003" ++ CRLF) 22; EvRead 512;
                     EvSend ("TOPIC #cruce-game003 WAITING" ++ CRLF) 30] |}).
Proof.
  assert (Hrange : 0 <= 3 <= 999) by lia.
  assert (Hread : 0 <= 40) by lia.
  destruct (X8_toggle_flips_and_ignores_send_result sample_cfg
              {| connect_ret := fun _ => 0;
                 send_ret :=
                   fun t => if (Nat.leb (List.length t) 1) then 0 else -7;
                 read_ret := fun _ => (40, "332 alice #cruce-game003 :PLAYING");
                 readLine_ret := fun _ => EmptyString;
                 disconnect_ret := fun _ => 0 |}
              3 initial_state 40 "332 alice #cruce-game003 :PLAYING"
              Hrange eq_refl eq_refl Hread)
    as (_ & Hplaying & _).
  apply Hplaying; [reflexivity | discriminate].
Defined.

(** ** The scan of the later revision *)

Lemma sends_app (a b : list Event) :
  sends (a ++ b) = (sends a + sends b)%nat.
Proof.
  induction a as [|e a IH]; [reflexivity|].
  destruct e; cbn [app sends]; rewrite IH; reflexivity.
Qed.

Lemma toggleRoomStatus_sends (cfg : Config) (net : Transport)
  (roomNumber : Z) (s : State) :
  (sends (trace (snd (Part000.irc_toggleRoomStatus cfg net roomNumber s)))
   <= sends (trace s) + 2)%nat.
Proof.
  unfold Part000.irc_toggleRoomStatus. run.
  cases; cbn [snd]; rewrite ?trace_log, ?sends_app; cbn [sends]; lia.
Qed.

Lemma loop_result (cfg : Config) (net : Transport) :
  forall (n : nat) (i : Z) (s : State),
    (fst (Part000.getAvailableRoom_loop cfg net n i s) = -1 \/
     i <= fst (Part000.getAvailableRoom_loop cfg net n i s) < i + Z.of_nat n)
    /\
    (sends (trace (snd (Part000.getAvailableRoom_loop cfg net n i s)))
     <= sends (trace s) + 2 * n)%nat.
Proof.
  induction n as [|n IH]; intros i s.
  - cbn [Part000.getAvailableRoom_loop]. unfold ret. cbn [fst snd].
    split; [left; reflexivity | lia].
  - rewrite loop_step.
    pose proof (toggleRoomStatus_sends cfg net i s) as Hsends.
    destruct (fst (Part000.irc_toggleRoomStatus cfg net i s) =? 0).
    + cbn [fst snd]. split; [right; lia | lia].
    + destruct (IH (i + 1)
                  (snd (Part000.irc_toggleRoomStatus cfg net i s)))
        as [Hres Hcount].
      split; [|lia]. destruct Hres as [Hres | Hres]; [now left | right; lia].
Qed.

(** X9. [irc_getAvailableRoom] returns -1 or a number between 0 and 999,
    makes at most 2000 sends (a fetch and at most one new topic for each of
    the 1000 rooms), only adds to what happened on the connection and
    leaves [currentRoom] alone. *)
Theorem X9_scan_is_bounded :
  forall (cfg : Config) (net : Transport) (s : State),
    let result := Part000.irc_getAvailableRoom cfg net s in
    (fst result = -1 \/ 0 <= fst result <= 999) /\
    (sends (trace (snd result)) <= sends (trace s) + 2000)%nat /\
    (exists events, trace (snd result) = (trace s ++ events)%list) /\
    currentRoom (snd result) = currentRoom s.
Proof.
  intros cfg net s result. subst result.
  unfold Part000.irc_getAvailableRoom.
  destruct (loop_result cfg net 1000 0 s) as [Hres Hcount].
  destruct (loop_extends cfg net 1000 0 s) as (events & Htrace & Hroom).
  repeat split.
  - destruct Hres as [Hres | Hres]; [now left | right; lia].
  - exact Hcount.
  - exists events. exact Htrace.
  - exact Hroom.
Qed.

(** ** The earlier revision, [src/irc/irc.c] *)

(** X10. In the earlier revision [irc_getAvailableRoom] returns the
    smallest room number whose probe returned 0, having probed exactly the
    rooms up to it, and returns -1 exactly when none of the 1000 probes
    returned 0. *)
Theorem X10_IrcC_scan_returns_first_free :
  forall (cfg : Config) (net : Transport) (s : State),
    let result := IrcC.irc_getAvailableRoom cfg net s in
    ((fst result = -1 /\
      snd result = scan_state cfg net s 1000) \/
     (exists k, (k < 1000)%nat /\
                fst result = Z.of_nat k /\
                scan_status cfg net s k = 0 /\
                (forall j, (j < k)%nat -> scan_status cfg net s j <> 0) /\
                snd result = scan_state cfg net s (S k))) /\
    (fst result = -1 <->
     forall j, (j < 1000)%nat -> scan_status cfg net s j <> 0).
Proof.
  intros cfg net s result. subst result. split.
  - destruct (IrcC_getAvailableRoom_smallest cfg net s)
      as [(Hr & _ & Hs) | Hfound]; [left; now split | right; exact Hfound].
  - apply IrcC_getAvailableRoom_not_found_iff.
Qed.

(** X11. The scan of the earlier revision is read-only: every call it adds
    is the fetch of a topic or a read, and [currentRoom] is unchanged. *)
Theorem X11_IrcC_scan_only_fetches :
  forall (cfg : Config) (net : Transport) (s : State),
    exists events,
      trace (snd (IrcC.irc_getAvailableRoom cfg net s))
      = (trace s ++ events)%list /\
      Forall (is_fetch cfg) events /\
      currentRoom (snd (IrcC.irc_getAvailableRoom cfg net s)) = currentRoom s.
Proof.
  intros cfg net s. apply IrcC_getAvailableRoom_is_read_only.
Qed.

(** X12. In the earlier revision [irc_toggleRoomStatus] changes nothing on
    the server. Once the fetch is sent and the read returns [NO_ERROR], the
    result is 0 when the line has [":No topic is set"], else 1 when it has
    WAITING, else 2 when it has PLAYING, else -1; with [NO_ERROR] at 0, the
    result is 0 only in the first case. *)
Theorem X12_IrcC_toggle_classifies :
  forall (cfg : Config) (net : Transport) (roomNumber : Z) (s : State)
         (recvBuffer : string),
    let roomName := sprintf_ROOM_FORMAT cfg roomNumber in
    let fetch := EvSend ("TOPIC " ++ roomName ++ CRLF)
                        (strlen ("TOPIC " ++ roomName ++ CRLF)) in
    send_ret net (trace s ++ [fetch])%list = NO_ERROR cfg ->
    read_ret net (trace s ++ [fetch; EvRead 512])%list
      = (NO_ERROR cfg, recvBuffer) ->
    IrcC.irc_toggleRoomStatus cfg net roomNumber s
    = (match strstr recvBuffer ":No topic is set" with
       | Some _ => 0
       | None =>
           match strstr recvBuffer "WAITING" with
           | Some _ => 1
           | None =>
               match strstr recvBuffer "PLAYING" with
               | Some _ => 2
               | None => -1
               end
           end
       end,
       log (EvRead 512) (log fetch s)) /\
    (NO_ERROR cfg = 0 ->
     (fst (IrcC.irc_toggleRoomStatus cfg net roomNumber s) = 0 <->
      strstr recvBuffer ":No topic is set" <> None)).
Proof.
  intros cfg net roomNumber s recvBuffer roomName fetch Hsend Hread.
  split.
  - exact (IrcC_toggleRoomStatus_cases cfg net roomNumber s recvBuffer
             Hsend Hread).
  - intros Hzero.
    pose proof (IrcC_probe_zero_iff_unset cfg net roomNumber s Hzero) as Hiff.
    cbv zeta in Hiff. fold roomName in Hiff. fold fetch in Hiff.
    rewrite Hread, Hsend in Hiff. cbn [fst snd] in Hiff.
    rewrite Hiff. intuition.
Qed.

Lemma X12_IrcC_toggle_classifies_witness :
  IrcC.irc_toggleRoomStatus sample_cfg
    (constant_server sample_cfg 0 "332 a #cruce-game001 :WAITING for PLAYING")
    1 initial_state
  = (1, {| currentRoom := -1;
           trace := [EvSend ("TOPIC #cruce-game001" ++ CRLF) 22;
                     EvRead 512] |}).
Proof.
  apply (X12_IrcC_toggle_classifies sample_cfg
           (constant_server sample_cfg 0
              "332 a #cruce-game001 :WAITING for PLAYING")
           1 initial_state "332 a #cruce-game001 :WAITING for PLAYING").
  - reflexivity.
  - reflexivity.
Defined.

(** ** When the parser is defined *)

Lemma strchr_nonneg (s : string) (c : ascii) (i : Z) :
  strchr s c = Some i -> 0 <= i.
Proof.
  revert i. induction s as [|a s IH]; intros i H; [discriminate|].
  cbn [strchr] in H. destruct (Ascii.eqb a c).
  - injection H as <-. lia.
  - destruct (strchr s c) as [j|]; [|discriminate].
    injection H as <-. specialize (IH j eq_refl). lia.
Qed.

(** The first occurrence of [c] cuts the string in two. *)
Lemma strchr_split (s : string) (c : ascii) (i : Z) :
  strchr s c = Some i ->
  exists a b, s = a ++ String c b /\ strchr a c = None /\ strlen a = i.
Proof.
  revert i. induction s as [|x s IH]; intros i H; [discriminate|].
  cbn [strchr] in H. destruct (Ascii.eqb x c) eqn:Hx.
  - injection H as <-. apply Ascii.eqb_eq in Hx. subst x.
    exists EmptyString, s. repeat split.
  - destruct (strchr s c) as [j|]; [|discriminate].
    injection H as <-.
    destruct (IH j eq_refl) as (a & b & -> & Hnone & Hlen).
    exists (String x a), b. repeat split.
    + cbn [strchr]. now rewrite Hx, Hnone.
    + rewrite strlen_String. lia.
Qed.

(** The parse of a line [":" p " " rest], where [p] has no space, in terms
    of [rest] alone. *)
Lemma parseMessage_after_prefix (p rest : string) :
  strchr p " " = None ->
  Part000.parseMessage (String ":" (p ++ String " " rest))
  = match strchr rest " " with
    | None => Undefined
    | Some j =>
        let after := drop (Z.to_nat (j + 1)) rest in
        if (strlen p - 1 <? 0) || (j <? 0)
           || (int_of_size_t (strlen after - 1) <? 0)
        then Undefined
        else Normal
               {| Part000.prefix :=
                    String.substring 0 (String.length p - 1) p;
                  Part000.command := String.substring 0 (Z.to_nat j) rest;
                  Part000.trailing :=
                    String.substring 0
                      (Z.to_nat (int_of_size_t (strlen after - 1))) after |}
    end.
Proof.
  intros Hp.
  set (str := String ":" (p ++ String " " rest)).
  assert (Hspace : strchr str " " = Some (strlen p + 1)).
  { unfold str. cbn [strchr]. change (Ascii.eqb ":" " ") with false.
    cbn iota. now rewrite strchr_app_first. }
  assert (Hdrop : forall k : nat,
             drop (S (String.length p + S k)) str = drop k rest).
  { intros k. unfold str. cbn [drop]. rewrite drop_app. reflexivity. }
  unfold Part000.parseMessage. fold str. rewrite Hspace.
  unfold str at 1. cbv beta iota. unfold strchr_at.
  replace (Z.to_nat (strlen p + 1 - 1 + 2))
    with (S (String.length p + 1)) by (unfold strlen; lia).
  rewrite (Hdrop O). cbn [drop].
  destruct (strchr rest " ") as [j|] eqn:Hj; [|reflexivity].
  pose proof (strchr_nonneg rest " " j Hj) as Hjpos.
  cbv zeta.
  replace (Z.to_nat (strlen p + 1 - 1 + 2 + j + 1))
    with (S (String.length p + S (Z.to_nat (j + 1))))
    by (unfold strlen; lia).
  rewrite Hdrop.
  replace (strlen p + 1 - 1 - 0 - 1) with (strlen p - 1) by lia.
  replace (strlen p + 1 - 1 + 2 + j + 1 - 2 - (strlen p + 1 - 1 + 2) + 1)
    with j by lia.
  destruct ((strlen p - 1 <? 0) || (j <? 0)
            || (int_of_size_t
                  (strlen (drop (Z.to_nat (j + 1)) rest) - 1) <? 0))
    eqn:Hcheck; [reflexivity|].
  apply orb_false_iff in Hcheck. destruct Hcheck as [Hcheck _].
  apply orb_false_iff in Hcheck. destruct Hcheck as [Hplen _].
  apply Z.ltb_ge in Hplen.
  unfold strncpy_at. f_equal. f_equal.
  - rewrite substring_drop. unfold str.
    change (Z.to_nat 1) with 1%nat. cbn [drop].
    replace (Z.to_nat (strlen p - 1))
      with (String.length p - 1)%nat by (unfold strlen; lia).
    apply substring_app_left. lia.
  - rewrite substring_drop.
    replace (Z.to_nat (strlen p + 1 - 1 + 2))
      with (S (String.length p + 1)) by (unfold strlen; lia).
    rewrite (Hdrop O). reflexivity.
  - rewrite substring_drop.
    replace (Z.to_nat (strlen p + 1 - 1 + 2 + j + 1))
      with (S (String.length p + S (Z.to_nat (j + 1))))
      by (unfold strlen; lia).
    rewrite Hdrop. reflexivity.
Qed.

Lemma parseMessage_no_space (rest : string) :
  strchr rest " " = None ->
  Part000.parseMessage (String ":" rest) = Undefined.
Proof.
  intros Hnone. unfold Part000.parseMessage.
  cbn [strchr]. change (Ascii.eqb ":" " ") with false. cbv iota.
  rewrite Hnone. reflexivity.
Qed.

Lemma drop_past_space (c r : string) :
  drop (Z.to_nat (strlen c + 1)) (c ++ String " " r) = r.
Proof.
  replace (Z.to_nat (strlen c + 1)) with (String.length c + 1)%nat
    by (unfold strlen; lia).
  rewrite drop_app. reflexivity.
Qed.

(** X13. On a line [":" prefix " " command " " rest], where prefix and
    command have no space and are followed by at least one character of
    rest, the parser returns the command whole, the prefix without its last
    character and the rest without its last character. *)
Theorem X13_parse_prefixed_line :
  forall p c r : string,
    strchr p " " = None ->
    strchr c " " = None ->
    1 <= strlen p ->
    1 <= strlen r <= INT_MAX ->
    Part000.parseMessage (String ":" (p ++ String " " (c ++ String " " r)))
    = Normal
        {| Part000.prefix := String.substring 0 (String.length p - 1) p;
           Part000.command := c;
           Part000.trailing := String.substring 0 (String.length r - 1) r |}.
Proof. exact parseMessage_prefixed. Qed.

Lemma X13_parse_prefixed_line_witness :
  Part000.parseMessage
    (String ":" ("irc.example.org" ++ String " "
                   ("332" ++ String " "
                      ("alice #cruce-game001 :WAITING" ++ CRLF))))
  = Normal {| Part000.prefix := "irc.example.or";
              Part000.command := "332";
              Part000.trailing :=
                "alice #cruce-game001 :WAITING" ++ String CR EmptyString |}.
Proof.
  apply (X13_parse_prefixed_line "irc.example.org" "332"
           ("alice #cruce-game001 :WAITING" ++ CRLF)).
  - reflexivity.
  - reflexivity.
  - vm_compute. discriminate.
  - split; vm_compute; discriminate.
Defined.

(** X14. The parser has no result on a prefixed line that lacks one of its
    three parts: a line without any space, a line with a command and
    nothing after it (like [":nick QUIT"]), a line that ends right after
    the space that follows the command, and a line whose prefix is
    empty. *)
Theorem X14_parse_incomplete_line :
  forall p c : string,
    strchr p " " = None ->
    strchr c " " = None ->
    Part000.parseMessage (String ":" p) = Undefined /\
    Part000.parseMessage (String ":" (p ++ String " " c)) = Undefined /\
    Part000.parseMessage
      (String ":" (p ++ String " " (c ++ String " " EmptyString)))
    = Undefined /\
    (forall rest,
        Part000.parseMessage (String ":" (String " " rest)) = Undefined).
Proof.
  intros p c Hp Hc. repeat split.
  - now apply parseMessage_no_space.
  - rewrite parseMessage_after_prefix by assumption. now rewrite Hc.
  - rewrite parseMessage_after_prefix by assumption.
    rewrite (strchr_app_first c EmptyString " " Hc). cbv zeta.
    rewrite drop_past_space. change (strlen EmptyString - 1) with (-1).
    change (int_of_size_t (-1) <? 0) with true.
    now rewrite orb_true_r.
  - intros rest.
    change (String ":" (String " " rest))
      with (String ":" (EmptyString ++ String " " rest)).
    rewrite parseMessage_after_prefix by reflexivity.
    destruct (strchr rest " "); reflexivity.
Qed.

Lemma X14_parse_incomplete_line_witness :
  Part000.parseMessage ":nick!user@host QUIT" = Undefined.
Proof.
  apply (X14_parse_incomplete_line "nick!user@host" "QUIT");
    reflexivity.
Defined.

(** X15. Whenever the parser returns a message, the line it was given is
    [":" prefix " " command " " rest] with a prefix and a command free of
    spaces, a prefix of at least one character and a rest of at least one
    character; the command of the message is that command and its prefix
    is that prefix less its last character. *)
Theorem X15_parse_defined_only_on_three_parts :
  forall (str : string) (m : Part000.IrcMessage),
    Part000.parseMessage str = Normal m ->
    exists p c r,
      str = String ":" (p ++ String " " (c ++ String " " r)) /\
      strchr p " " = None /\
      strchr c " " = None /\
      1 <= strlen p /\
      1 <= strlen r /\
      Part000.command m = c /\
      Part000.prefix m = String.substring 0 (String.length p - 1) p.
Proof.
  intros str m Hparse.
  destruct str as [|a rest0]; [discriminate|].
  destruct (Ascii.eqb a ":") eqn:Ha.
  2:{ rewrite parseMessage_without_colon in Hparse; [discriminate|].
      intros rest Heq. injection Heq as -> _.
      rewrite Ascii.eqb_refl in Ha. discriminate. }
  apply Ascii.eqb_eq in Ha. subst a.
  destruct (strchr rest0 " ") as [i|] eqn:Hi.
  2:{ rewrite parseMessage_no_space in Hparse by assumption. discriminate. }
  destruct (strchr_split rest0 " " i Hi) as (p & rest & -> & Hp & _).
  rewrite parseMessage_after_prefix in Hparse by assumption.
  destruct (strchr rest " ") as [j|] eqn:Hj; [|discriminate].
  destruct (strchr_split rest " " j Hj) as (c & r & -> & Hc & Hlen).
  subst j. cbv zeta in Hparse. rewrite drop_past_space in Hparse.
  destruct ((strlen p - 1 <? 0) || (strlen c <? 0)
            || (int_of_size_t (strlen r - 1) <? 0)) eqn:Hcheck;
    [discriminate|].
  injection Hparse as <-.
  apply orb_false_iff in Hcheck. destruct Hcheck as [Hcheck Hr].
  apply orb_false_iff in Hcheck. destruct Hcheck as [Hplen _].
  apply Z.ltb_ge in Hplen. apply Z.ltb_ge in Hr.
  exists p, c, r. repeat split; try assumption; try lia.
  - pose proof (strlen_nonneg r) as Hnn.
    destruct (Z.eq_dec (strlen r) 0) as [Hzero|Hne]; [|lia].
    rewrite Hzero in Hr. vm_compute in Hr. now contradiction Hr.
  - cbn [Part000.command]. unfold strlen. rewrite Nat2Z.id.
    rewrite substring_app_left by lia. apply substring_whole.
Qed.

Lemma X15_parse_defined_only_on_three_parts_witness :
  exists p c r,
    privmsg_line = String ":" (p ++ String " " (c ++ String " " r)) /\
    strchr p " " = None /\ strchr c " " = None /\
    1 <= strlen p /\ 1 <= strlen r /\
    "PRIVMSG" = c /\
    "nick!user@hos" = String.substring 0 (String.length p - 1) p.
Proof.
  exact (X15_parse_defined_only_on_three_parts privmsg_line
           {| Part000.prefix := "nick!user@hos";
              Part000.command := "PRIVMSG";
              Part000.trailing := "#room :hello ther" |} eq_refl).
Defined.

(** ** Names and invitations, in full *)

Lemma drop_to_colon (before tail : string) :
  drop (Z.to_nat (strlen before)) (before ++ String ":" tail)
  = String ":" tail.
Proof.
  replace (Z.to_nat (strlen before)) with (String.length before + 0)%nat
    by (unfold strlen; lia).
  rewrite drop_app. reflexivity.
Qed.

(** X16. [irc_getNames] returns NULL, and does not go on, when its send
    fails (nothing is read then) and when the read returns a negative
    code. *)
Theorem X16_getNames_transport_errors :
  forall (cfg : Config) (net : Transport) (isRoom : Z) (s : State),
    let channel :=
      if negb (isRoom =? 0) then sprintf_ROOM_FORMAT cfg (currentRoom s)
      else LOBBY_CHANNEL cfg in
    let names := EvSend ("NAMES " ++ channel ++ CRLF)
                        (strlen ("NAMES " ++ channel ++ CRLF)) in
    (isRoom = 0 \/ currentRoom s <> -1) ->
    (send_ret net (trace s ++ [names])%list <> NO_ERROR cfg ->
     Part000.irc_getNames cfg net isRoom s = (Normal None, log names s)) /\
    (send_ret net (trace s ++ [names])%list = NO_ERROR cfg ->
     fst (read_ret net (trace s ++ [names; EvRead 512])%list) < 0 ->
     Part000.irc_getNames cfg net isRoom s
     = (Normal None, log (EvRead 512) (log names s))).
Proof.
  intros cfg net isRoom s channel names Hscope.
  unfold Part000.irc_getNames.
  rewrite bind_run. unfold get_currentRoom. cbn [fst snd].
  assert (Hguard : negb (isRoom =? 0) && (currentRoom s =? -1) = false).
  { destruct Hscope as [-> | Hin]; [reflexivity|].
    apply Z.eqb_neq in Hin. rewrite Hin. apply andb_false_r. }
  rewrite Hguard.
  assert (Hcmd :
    (if negb (isRoom =? 0)
     then "NAMES " ++ sprintf_ROOM_FORMAT cfg (currentRoom s) ++ CRLF
     else "NAMES " ++ LOBBY_CHANNEL cfg ++ CRLF)
    = "NAMES " ++ channel ++ CRLF).
  { unfold channel. destruct (negb (isRoom =? 0)); reflexivity. }
  rewrite Hcmd. subst names.
  rewrite bind_run. unfold network_send. cbn [fst snd].
  rewrite !trace_log. split.
  - intros Hfail. apply Z.eqb_neq in Hfail. rewrite Hfail. reflexivity.
  - intros Hsend Hread. rewrite Hsend, Zeqb_same. cbn [negb].
    rewrite bind_run. unfold network_read. cbn [fst snd].
    rewrite !trace_log, <- app_assoc. cbn [app].
    destruct (read_ret net _) as [readRet buffer]. cbn [fst] in Hread.
    apply Z.ltb_lt in Hread. rewrite Hread. reflexivity.
Qed.

Lemma X16_getNames_transport_errors_witness :
  Part000.irc_getNames sample_cfg (failing_send_server sample_cfg (-7)) 1
    (in_room 8)
  = (Normal None,
     {| currentRoom := 8;
        trace := [EvSend ("NAMES #cruce-game008" ++ CRLF) 22] |}) /\
  Part000.irc_getNames sample_cfg
    (constant_server sample_cfg (-9) EmptyString) 0 initial_state
  = (Normal None,
     {| currentRoom := -1;
        trace := [EvSend ("NAMES #cruce-lobby" ++ CRLF) 20; EvRead 512] |}).
Proof.
  split.
  - apply (X16_getNames_transport_errors sample_cfg
             (failing_send_server sample_cfg (-7)) 1 (in_room 8)).
    + right. discriminate.
    + discriminate.
  - apply (X16_getNames_transport_errors sample_cfg
             (constant_server sample_cfg (-9) EmptyString) 0 initial_state).
    + left. reflexivity.
    + reflexivity.
    + reflexivity.
Defined.

(** X17. When the line read is [before ":" tail], with no [':'] in
    [before], [irc_getNames] returns [":" tail]: the names as the server
    listed them, in the same order, with the [':'] in front, and everything
    up to that [':'] removed. *)
Theorem X17_getNames_returns_from_colon :
  forall (cfg : Config) (net : Transport) (isRoom : Z) (s : State)
         (readRet : Z) (before tail : string),
    let channel :=
      if negb (isRoom =? 0) then sprintf_ROOM_FORMAT cfg (currentRoom s)
      else LOBBY_CHANNEL cfg in
    let names := EvSend ("NAMES " ++ channel ++ CRLF)
                        (strlen ("NAMES " ++ channel ++ CRLF)) in
    (isRoom = 0 \/ currentRoom s <> -1) ->
    send_ret net (trace s ++ [names])%list = NO_ERROR cfg ->
    read_ret net (trace s ++ [names; EvRead 512])%list
      = (readRet, before ++ String ":" tail) ->
    0 <= readRet ->
    strchr before ":" = None ->
    Part000.irc_getNames cfg net isRoom s
    = (Normal (Some (String ":" tail)), log (EvRead 512) (log names s)).
Proof.
  intros cfg net isRoom s readRet before tail channel names
         Hscope Hsend Hread Hret Hbefore.
  rewrite (getNames_result cfg net isRoom s readRet
             (before ++ String ":" tail) Hscope Hsend Hread Hret).
  rewrite (strchr_app_first before tail ":" Hbefore).
  now rewrite drop_to_colon.
Qed.

Lemma X17_getNames_returns_from_colon_witness :
  Part000.irc_getNames sample_cfg
    (constant_server sample_cfg 34
       ("Users on #cruce-game008" ++ String ":" " carol dave:x"))
    1 (in_room 8)
  = (Normal (Some ": carol dave:x"),
     {| currentRoom := 8;
        trace := [EvSend ("NAMES #cruce-game008" ++ CRLF) 22; EvRead 512] |}).
Proof.
  apply (X17_getNames_returns_from_colon sample_cfg
           (constant_server sample_cfg 34
              ("Users on #cruce-game008" ++ String ":" " carol dave:x"))
           1 (in_room 8) 34 "Users on #cruce-game008" " carol dave:x").
  - right. discriminate.
  - reflexivity.
  - reflexivity.
  - lia.
  - reflexivity.
Defined.

Lemma invite_after_names (cfg : Config) (net : Transport)
  (nickname : string) (s : State) (readRet : Z) (buffer : string)
  (colon : Z) :
  let names := EvSend ("NAMES " ++ LOBBY_CHANNEL cfg ++ CRLF)
                      (strlen ("NAMES " ++ LOBBY_CHANNEL cfg ++ CRLF)) in
  let inviteCommand :=
    "INVITE " ++ sprintf_ROOM_FORMAT cfg (currentRoom s) ++ " "
      ++ nickname ++ CRLF in
  let invite := EvSend inviteCommand (strlen inviteCommand) in
  let sendRet := send_ret net (trace s ++ [names; EvRead 512; invite])%list in
  currentRoom s <> -1 ->
  send_ret net (trace s ++ [names])%list = NO_ERROR cfg ->
  read_ret net (trace s ++ [names; EvRead 512])%list = (readRet, buffer) ->
  0 <= readRet ->
  strchr buffer ":" = Some colon ->
  Part000.irc_invite cfg net nickname s
  = match strstr (drop (Z.to_nat colon) buffer) nickname with
    | None => (Normal (-3), log (EvRead 512) (log names s))
    | Some _ =>
        (Normal (if sendRet =? NO_ERROR cfg then 0 else sendRet),
         log invite (log (EvRead 512) (log names s)))
    end.
Proof.
  intros names inviteCommand invite sendRet Hin Hsend Hread Hret Hcolon.
  unfold Part000.irc_invite.
  rewrite bind_run. unfold get_currentRoom. cbn [fst snd].
  apply Z.eqb_neq in Hin. rewrite Hin.
  rewrite bind_run.
  rewrite (getNames_result cfg net 0 s readRet buffer)
    by (auto; cbn [Z.eqb negb]; assumption).
  cbn [Z.eqb negb fst snd]. fold names. rewrite Hcolon.
  destruct (strstr (drop (Z.to_nat colon) buffer) nickname); [|reflexivity].
  rewrite bind_run. unfold network_send. cbn [fst snd currentRoom log].
  fold inviteCommand. fold invite.
  rewrite !trace_log, <- !app_assoc. cbn [app]. fold sendRet.
  destruct (sendRet =? NO_ERROR cfg); reflexivity.
Qed.

(** X18. In a room, once the names of the lobby are read, [irc_invite]
    decides on [strstr] alone. If the nickname occurs nowhere in the text of
    the names, the result is -3 and no invitation is sent. If it occurs,
    ["INVITE <channel of the current room> <nickname>"] is sent and the
    result is 0, or the code of that send when it failed. *)
Theorem X18_invite_decides_on_strstr :
  forall (cfg : Config) (net : Transport) (nickname : string) (s : State)
         (readRet : Z) (buffer : string) (colon : Z),
    let names := EvSend ("NAMES " ++ LOBBY_CHANNEL cfg ++ CRLF)
                        (strlen ("NAMES " ++ LOBBY_CHANNEL cfg ++ CRLF)) in
    let inviteCommand :=
      "INVITE " ++ sprintf_ROOM_FORMAT cfg (currentRoom s) ++ " "
        ++ nickname ++ CRLF in
    let invite := EvSend inviteCommand (strlen inviteCommand) in
    let sendRet :=
      send_ret net (trace s ++ [names; EvRead 512; invite])%list in
    currentRoom s <> -1 ->
    send_ret net (trace s ++ [names])%list = NO_ERROR cfg ->
    read_ret net (trace s ++ [names; EvRead 512])%list = (readRet, buffer) ->
    0 <= readRet ->
    strchr buffer ":" = Some colon ->
    (strstr (drop (Z.to_nat colon) buffer) nickname = None ->
     Part000.irc_invite cfg net nickname s
     = (Normal (-3), log (EvRead 512) (log names s))) /\
    (strstr (drop (Z.to_nat colon) buffer) nickname <> None ->
     Part000.irc_invite cfg net nickname s
     = (Normal (if sendRet =? NO_ERROR cfg then 0 else sendRet),
        log invite (log (EvRead 512) (log names s)))).
Proof.
  intros cfg net nickname s readRet buffer colon names inviteCommand invite
         sendRet Hin Hsend Hread Hret Hcolon.
  pose proof (invite_after_names cfg net nickname s readRet buffer colon
                Hin Hsend Hread Hret Hcolon) as Hrun.
  cbv zeta in Hrun. fold names inviteCommand invite sendRet in Hrun.
  split; intros Hfound.
  - now rewrite Hfound in Hrun.
  - destruct (strstr (drop (Z.to_nat colon) buffer) nickname);
      [exact Hrun | now contradiction Hfound].
Qed.

Lemma X18_invite_decides_on_strstr_witness :
  Part000.irc_invite sample_cfg
    (constant_server sample_cfg 32 "Users on #cruce-lobby: alice bob")
    "carol" (in_room 3)
  = (Normal (-3),
     {| currentRoom := 3;
        trace := [EvSend ("NAMES #cruce-lobby" ++ CRLF) 20; EvRead 512] |}).
Proof.
  assert (Hin : currentRoom (in_room 3) <> -1) by discriminate.
  assert (Hret : 0 <= 32) by lia.
  destruct (X18_invite_decides_on_strstr sample_cfg
              (constant_server sample_cfg 32 "Users on #cruce-lobby: alice bob")
              "carol" (in_room 3) 32 "Users on #cruce-lobby: alice bob" 21
              Hin eq_refl eq_refl Hret eq_refl) as [Habsent _].
  apply Habsent. reflexivity.
Defined.

Lemma strstr_empty (haystack : string) : strstr haystack EmptyString = Some 0.
Proof. destruct haystack; reflexivity. Qed.

(** X19. The empty nickname is found in every names text: in a room, once
    the names are read, [irc_invite ""] always sends ["INVITE <channel> "]
    followed by CR LF, even when the lobby is empty. *)
Theorem X19_invite_empty_nickname :
  forall (cfg : Config) (net : Transport) (s : State) (readRet : Z)
         (buffer : string) (colon : Z),
    let names := EvSend ("NAMES " ++ LOBBY_CHANNEL cfg ++ CRLF)
                        (strlen ("NAMES " ++ LOBBY_CHANNEL cfg ++ CRLF)) in
    let inviteCommand :=
      "INVITE " ++ sprintf_ROOM_FORMAT cfg (currentRoom s) ++ " " ++ CRLF in
    let invite := EvSend inviteCommand (strlen inviteCommand) in
    currentRoom s <> -1 ->
    send_ret net (trace s ++ [names])%list = NO_ERROR cfg ->
    read_ret net (trace s ++ [names; EvRead 512])%list = (readRet, buffer) ->
    0 <= readRet ->
    strchr buffer ":" = Some colon ->
    trace (snd (Part000.irc_invite cfg net EmptyString s))
    = (trace s ++ [names; EvRead 512; invite])%list.
Proof.
  intros cfg net s readRet buffer colon names inviteCommand invite
         Hin Hsend Hread Hret Hcolon.
  rewrite (invite_after_names cfg net EmptyString s readRet buffer colon
             Hin Hsend Hread Hret Hcolon).
  rewrite strstr_empty. cbn [snd].
  rewrite !trace_log, <- !app_assoc. reflexivity.
Qed.

Lemma X19_invite_empty_nickname_witness :
  trace (snd (Part000.irc_invite sample_cfg
                (constant_server sample_cfg 22 "Users on #cruce-lobby:")
                EmptyString (in_room 3)))
  = [EvSend ("NAMES #cruce-lobby" ++ CRLF) 20; EvRead 512;
     EvSend ("INVITE #cruce-game003 " ++ CRLF) 24].
Proof.
  assert (Hin : currentRoom (in_room 3) <> -1) by discriminate.
  assert (Hret : 0 <= 22) by lia.
  exact (X19_invite_empty_nickname sample_cfg
           (constant_server sample_cfg 22 "Users on #cruce-lobby:")
           (in_room 3) 22 "Users on #cruce-lobby:" 21
           Hin eq_refl eq_refl Hret eq_refl).
Defined.

(** ** Creating a room: failing sends *)

(** X20. When a room was found and the session is in none,
    [irc_createRoom] returns the code of the ["JOIN"] if that send fails,
    without sending the topic; if the ["JOIN"] went out and the send of the
    topic fails it returns the code of that send, the room being joined on
    the server with no topic set. *)
Theorem X20_createRoom_failed_sends :
  forall (cfg : Config) (net : Transport) (s : State),
    let probe := Part000.irc_getAvailableRoom cfg net s in
    let roomName := sprintf_ROOM_FORMAT cfg (fst probe) in
    let joinCommand := "JOIN " ++ roomName ++ CRLF in
    let topicCommand := "TOPIC " ++ roomName ++ " WAITING" ++ CRLF in
    let join := EvSend joinCommand (strlen joinCommand) in
    let topic := EvSend topicCommand (strlen topicCommand) in
    fst probe <> -1 ->
    currentRoom s = -1 ->
    (send_ret net (trace (snd probe) ++ [join])%list <> NO_ERROR cfg ->
     Part000.irc_createRoom cfg net s
     = (send_ret net (trace (snd probe) ++ [join])%list,
        log join (snd probe))) /\
    (send_ret net (trace (snd probe) ++ [join])%list = NO_ERROR cfg ->
     send_ret net (trace (snd probe) ++ [join; topic])%list <> NO_ERROR cfg ->
     Part000.irc_createRoom cfg net s
     = (send_ret net (trace (snd probe) ++ [join; topic])%list,
        log topic (log join (snd probe)))).
Proof.
  intros cfg net s. cbv zeta.
  pose proof (getAvailableRoom_keeps_currentRoom cfg net s) as Hkeep.
  unfold Part000.irc_createRoom. rewrite bind_run.
  destruct (Part000.irc_getAvailableRoom cfg net s) as [roomNumber s1].
  cbn [fst snd] in *. intros Hfound Hfree.
  apply Z.eqb_neq in Hfound. rewrite Hfound.
  unfold bind, get_currentRoom, ret, network_send.
  rewrite Hkeep, Hfree, Zeqb_same. cbn [negb].
  change (" " ++ "WAITING" ++ CRLF) with (" WAITING" ++ CRLF).
  rewrite !trace_log. split.
  - intros Hfail. apply Z.eqb_neq in Hfail. rewrite Hfail. reflexivity.
  - intros Hjoin Htopic. rewrite Hjoin, Zeqb_same. cbn [negb].
    rewrite !trace_log, <- app_assoc. cbn [app].
    apply Z.eqb_neq in Htopic. rewrite Htopic. reflexivity.
Qed.

Lemma X20_createRoom_failed_sends_witness :
  Part000.irc_createRoom sample_cfg
    {| connect_ret := fun _ => 0;
       send_ret := fun t => if (Nat.leb (List.length t) 3) then 0 else -7;
       read_ret := fun _ => (40, playing_reply);
       readLine_ret := fun _ => EmptyString;
       disconnect_ret := fun _ => 0 |}
    initial_state
  = (-7, {| currentRoom := -1;
            trace := [EvSend ("TOPIC #cruce-game000" ++ CRLF) 22; EvRead 512;
                      EvSend ("TOPIC #cruce-game000 WAITING" ++ CRLF) 30;
                      EvSend ("JOIN #cruce-game000" ++ CRLF) 21] |}).
Proof.
  assert (Hfound :
    fst (Part000.irc_getAvailableRoom sample_cfg
           {| connect_ret := fun _ => 0;
              send_ret :=
                fun t => if (Nat.leb (List.length t) 3) then 0 else -7;
              read_ret := fun _ => (40, playing_reply);
              readLine_ret := fun _ => EmptyString;
              disconnect_ret := fun _ => 0 |}
           initial_state) <> -1) by (vm_compute; discriminate).
  destruct (X20_createRoom_failed_sends sample_cfg
              {| connect_ret := fun _ => 0;
                 send_ret :=
                   fun t => if (Nat.leb (List.length t) 3) then 0 else -7;
                 read_ret := fun _ => (40, playing_reply);
                 readLine_ret := fun _ => EmptyString;
                 disconnect_ret := fun _ => 0 |}
              initial_state Hfound eq_refl) as [Hjoin _].
  apply Hjoin. vm_compute. discriminate.
Defined.

(** ** The handshake: failures, and the two revisions side by side *)

(** X21. With a name of 1 to 9 characters, [irc_connect] returns the code
    of [network_connect] when the connection fails, and sends nothing; when
    the connection is up and the send of the handshake fails it returns
    the code of that send. The connection is not closed in either case. *)
Theorem X21_connect_transport_errors :
  forall (cfg : Config) (net : Transport) (name : string) (s : State),
    let open := EvConnect (IRC_SERVER cfg) (IRC_PORT cfg) in
    let commands :=
      "PASS *" ++ CRLF ++
      ("NICK " ++ name ++ CRLF) ++
      ("USER " ++ name ++ " 8 * :" ++ name ++ CRLF) ++
      ("JOIN " ++ LOBBY_CHANNEL cfg ++ CRLF) in
    let handshake := EvSend commands (strlen commands) in
    1 <= strlen name <= 9 ->
    strlen (LOBBY_CHANNEL cfg) <= 1000000 ->
    (connect_ret net (trace s ++ [open])%list <> NO_ERROR cfg ->
     Part000.irc_connect cfg net name s
     = (connect_ret net (trace s ++ [open])%list, log open s)) /\
    (connect_ret net (trace s ++ [open])%list = NO_ERROR cfg ->
     send_ret net (trace s ++ [open; handshake])%list <> NO_ERROR cfg ->
     Part000.irc_connect cfg net name s
     = (send_ret net (trace s ++ [open; handshake])%list,
        log handshake (log open s))).
Proof.
  intros cfg net name s open commands handshake Hlen Hlobby.
  pose proof (strlen_nonneg (LOBBY_CHANNEL cfg)) as Hln.
  unfold Part000.irc_connect.
  rewrite int_of_size_t_small by (unfold INT_MAX; lia).
  replace ((strlen name =? 0) || (strlen name >? 9)) with false.
  2:{ symmetry. apply orb_false_iff. split.
      - apply Z.eqb_neq. lia.
      - rewrite Z.gtb_ltb. apply Z.ltb_ge. lia. }
  rewrite handshake_length. fold commands.
  assert (Hfit : 0 <= strlen commands <= INT_MAX).
  { split; [apply strlen_nonneg|].
    unfold commands. rewrite <- handshake_length.
    rewrite !strlen_app. change (strlen CRLF) with 2.
    change (strlen "NICK ") with 5. change (strlen "USER ") with 5.
    change (strlen " 8 * :") with 6. change (strlen "JOIN ") with 5.
    unfold INT_MAX. lia. }
  rewrite int_of_size_t_small by lia.
  run. fold open. fold handshake. rewrite trace_log. split.
  - intros Hfail. apply Z.eqb_neq in Hfail. rewrite Hfail. reflexivity.
  - intros Hup Hfail. rewrite Hup, Zeqb_same. cbn [negb]. cbv beta.
    rewrite !trace_log, <- app_assoc. cbn [app].
    apply Z.eqb_neq in Hfail. rewrite Hfail. reflexivity.
Qed.

Lemma X21_connect_transport_errors_witness :
  Part000.irc_connect sample_cfg
    {| connect_ret := fun _ => -5;
       send_ret := fun _ => 0;
       read_ret := fun _ => (0, EmptyString);
       readLine_ret := fun _ => EmptyString;
       disconnect_ret := fun _ => 0 |}
    "alice" initial_state
  = (-5, {| currentRoom := -1;
            trace := [EvConnect "irc.freenode.net" 6667] |}).
Proof.
  apply (X21_connect_transport_errors sample_cfg
           {| connect_ret := fun _ => -5;
              send_ret := fun _ => 0;
              read_ret := fun _ => (0, EmptyString);
              readLine_ret := fun _ => EmptyString;
              disconnect_ret := fun _ => 0 |}
           "alice" initial_state).
  - vm_compute. split; discriminate.
  - vm_compute. discriminate.
  - discriminate.
Defined.

Lemma IrcC_connect_trace (cfg : Config) (net : Transport)
  (name : string) (s : State) :
  connect_ret net
    (trace s ++ [EvConnect (IRC_SERVER cfg) (IRC_PORT cfg)])%list
  = NO_ERROR cfg ->
  wire (trace (snd (IrcC.irc_connect cfg net name s)))
  = wire (trace s ++
          [EvConnect (IRC_SERVER cfg) (IRC_PORT cfg);
           EvSend ("PASS *" ++ CRLF)%string 8;
           EvSend ("NICK " ++ name ++ CRLF)%string
                  (strlen ("NICK " ++ name ++ CRLF)%string);
           EvSend ("USER " ++ name ++ " 8 * :" ++ name ++ CRLF)%string
                  (strlen ("USER " ++ name ++ " 8 * :" ++ name ++ CRLF)%string);
           EvSend ("JOIN " ++ LOBBY_CHANNEL cfg ++ CRLF)%string
                  (strlen ("JOIN " ++ LOBBY_CHANNEL cfg ++ CRLF)%string)])%list /\
  sends (trace (snd (IrcC.irc_connect cfg net name s)))
  = sends (trace s ++
           [EvConnect (IRC_SERVER cfg) (IRC_PORT cfg);
            EvSend ("PASS *" ++ CRLF)%string 8;
            EvSend ("NICK " ++ name ++ CRLF)%string
                   (strlen ("NICK " ++ name ++ CRLF)%string);
            EvSend ("USER " ++ name ++ " 8 * :" ++ name ++ CRLF)%string
                   (strlen ("USER " ++ name ++ " 8 * :" ++ name ++ CRLF)%string);
            EvSend ("JOIN " ++ LOBBY_CHANNEL cfg ++ CRLF)%string
                   (strlen ("JOIN " ++ LOBBY_CHANNEL cfg ++ CRLF)%string)])%list.
Proof.
  intros Hup. unfold IrcC.irc_connect. run.
  rewrite trace_log, Hup, Zeqb_same. cbn [negb snd].
  unfold log. cbn [currentRoom trace]. rewrite <- !app_assoc.
  split; reflexivity.
Qed.

(** X22. The earlier revision does not check the name and does not look at
    what its sends return: whenever the connection is made, [irc_connect]
    makes four sends, one per command, and returns [NO_ERROR]; when the
    connection fails it returns that code and sends nothing. *)
Theorem X22_IrcC_connect_ignores_sends :
  forall (cfg : Config) (net : Transport) (name : string) (s : State),
    let open := EvConnect (IRC_SERVER cfg) (IRC_PORT cfg) in
    let send (buf : string) := EvSend buf (strlen buf) in
    let pass := send ("PASS *" ++ CRLF) in
    let nick := send ("NICK " ++ name ++ CRLF) in
    let user := send ("USER " ++ name ++ " 8 * :" ++ name ++ CRLF) in
    let join := send ("JOIN " ++ LOBBY_CHANNEL cfg ++ CRLF) in
    (connect_ret net (trace s ++ [open])%list <> NO_ERROR cfg ->
     IrcC.irc_connect cfg net name s
     = (connect_ret net (trace s ++ [open])%list, log open s)) /\
    (connect_ret net (trace s ++ [open])%list = NO_ERROR cfg ->
     IrcC.irc_connect cfg net name s
     = (NO_ERROR cfg,
        {| currentRoom := currentRoom s;
           trace := (trace s ++ [open; pass; nick; user; join])%list |})).
Proof.
  intros cfg net name s open send pass nick user join.
  unfold IrcC.irc_connect. run. fold open. rewrite trace_log. split.
  - intros Hfail. apply Z.eqb_neq in Hfail. rewrite Hfail. reflexivity.
  - intros Hup. rewrite Hup, Zeqb_same. cbn [negb]. cbv beta.
    unfold log. cbn [currentRoom trace]. rewrite <- !app_assoc.
    reflexivity.
Qed.

Lemma X22_IrcC_connect_ignores_sends_witness :
  IrcC.irc_connect sample_cfg (failing_send_server sample_cfg (-7))
    "toolongnickname" initial_state
  = (0, {| currentRoom := -1;
           trace := [EvConnect "irc.freenode.net" 6667;
                     EvSend ("PASS *" ++ CRLF) 8;
                     EvSend ("NICK toolongnickname" ++ CRLF) 22;
                     EvSend ("USER toolongnickname 8 * :toolongnickname"
                               ++ CRLF) 43;
                     EvSend ("JOIN #cruce-lobby" ++ CRLF) 19] |}).
Proof.
  apply (X22_IrcC_connect_ignores_sends sample_cfg
           (failing_send_server sample_cfg (-7)) "toolongnickname"
           initial_state).
  reflexivity.
Defined.

Lemma wire_app (a b : list Event) : wire (a ++ b) = wire a ++ wire b.
Proof.
  induction a as [|e a IH]; [reflexivity|].
  cbn [app wire]. destruct (payload e) as [bytes|]; rewrite IH.
  - clear. induction bytes as [|c bytes IHb]; [reflexivity|].
    cbn [String.append]. now rewrite IHb.
  - reflexivity.
Qed.

Lemma payload_whole (buf : string) :
  payload (EvSend buf (strlen buf)) = Some buf.
Proof.
  unfold payload, strlen. rewrite Nat2Z.id. now rewrite substring_whole.
Qed.

Lemma append_assoc (a b c : string) : (a ++ b) ++ c = a ++ b ++ c.
Proof. induction a as [|x a IH]; [reflexivity | cbn; now rewrite IH]. Qed.

Lemma append_empty (a : string) : a ++ EmptyString = a.
Proof. induction a as [|x a IH]; [reflexivity | cbn; now rewrite IH]. Qed.

Lemma connect_trace (cfg : Config) (net : Transport) (name : string)
  (s : State) :
  let commands :=
    "PASS *" ++ CRLF ++
    ("NICK " ++ name ++ CRLF) ++
    ("USER " ++ name ++ " 8 * :" ++ name ++ CRLF) ++
    ("JOIN " ++ LOBBY_CHANNEL cfg ++ CRLF) in
  1 <= strlen name <= 9 ->
  strlen (LOBBY_CHANNEL cfg) <= 1000000 ->
  connect_ret net
    (trace s ++ [EvConnect (IRC_SERVER cfg) (IRC_PORT cfg)])%list
  = NO_ERROR cfg ->
  trace (snd (Part000.irc_connect cfg net name s))
  = (trace s ++ [EvConnect (IRC_SERVER cfg) (IRC_PORT cfg);
                 EvSend commands (strlen commands)])%list.
Proof.
  intros commands Hlen Hlobby Hup.
  pose proof (strlen_nonneg (LOBBY_CHANNEL cfg)) as Hln.
  unfold Part000.irc_connect.
  rewrite int_of_size_t_small by (unfold INT_MAX; lia).
  replace ((strlen name =? 0) || (strlen name >? 9)) with false.
  2:{ symmetry. apply orb_false_iff. split.
      - apply Z.eqb_neq. lia.
      - rewrite Z.gtb_ltb. apply Z.ltb_ge. lia. }
  rewrite handshake_length. fold commands.
  assert (Hfit : 0 <= strlen commands <= INT_MAX).
  { split; [apply strlen_nonneg|].
    unfold commands. rewrite <- handshake_length.
    rewrite !strlen_app. change (strlen CRLF) with 2.
    change (strlen "NICK ") with 5. change (strlen "USER ") with 5.
    change (strlen " 8 * :") with 6. change (strlen "JOIN ") with 5.
    unfold INT_MAX. lia. }
  rewrite int_of_size_t_small by lia.
  run. rewrite trace_log, Hup, Zeqb_same. cbn [negb]. cbv beta.
  destruct (negb _); cbn [snd]; rewrite !trace_log, <- app_assoc;
    reflexivity.
Qed.

(** X23. For a name of 1 to 9 characters, once the connection is made the
    two revisions put the same bytes on the wire: the one batch of the
    later revision is the four commands of the earlier one, in order. *)
Theorem X23_both_revisions_send_same_bytes :
  forall (cfg : Config) (net : Transport) (name : string) (s : State),
    1 <= strlen name <= 9 ->
    strlen (LOBBY_CHANNEL cfg) <= 1000000 ->
    connect_ret net
      (trace s ++ [EvConnect (IRC_SERVER cfg) (IRC_PORT cfg)])%list
    = NO_ERROR cfg ->
    wire (trace (snd (Part000.irc_connect cfg net name s)))
    = wire (trace (snd (IrcC.irc_connect cfg net name s))) /\
    sends (trace (snd (Part000.irc_connect cfg net name s)))
    = (sends (trace s) + 1)%nat /\
    sends (trace (snd (IrcC.irc_connect cfg net name s)))
    = (sends (trace s) + 4)%nat.
Proof.
  intros cfg net name s Hlen Hlobby Hup.
  destruct (IrcC_connect_trace cfg net name s Hup) as [-> ->].
  rewrite (connect_trace cfg net name s Hlen Hlobby Hup).
  rewrite !wire_app, !sends_app. cbn [wire sends].
  rewrite !payload_whole. cbn [payload].
  repeat split; try lia.
  f_equal. rewrite !append_empty. reflexivity.
Qed.

Lemma X23_both_revisions_send_same_bytes_witness :
  wire (trace (snd (Part000.irc_connect sample_cfg
                      (constant_server sample_cfg 0 EmptyString) "alice"
                      initial_state)))
  = wire (trace (snd (IrcC.irc_connect sample_cfg
                        (constant_server sample_cfg 0 EmptyString) "alice"
                        initial_state))).
Proof.
  apply (X23_both_revisions_send_same_bytes sample_cfg
           (constant_server sample_cfg 0 EmptyString) "alice" initial_state).
  - vm_compute. split; discriminate.
  - vm_compute. discriminate.
  - reflexivity.
Defined.

(** ** The functions the two revisions share *)

(** X24. When [errors.h] gives [PARAMETER_OUT_OF_RANGE] and
    [LEAVE_ROOM_ERROR] the values [src/irc/irc.c] defines for itself, the
    two revisions of [irc_joinRoom], [irc_leaveRoom], [irc_disconnect] and
    [irc_sendLobbyMessage] behave alike in every state and on every
    transport; what is proved of one holds of the other. *)
Theorem X24_revisions_agree_on_shared_functions :
  forall (cfg : Config) (net : Transport) (s : State),
    agrees_with_irc_c cfg ->
    (forall roomNumber,
        IrcC.irc_joinRoom cfg net roomNumber s
        = Part000.irc_joinRoom cfg net roomNumber s) /\
    IrcC.irc_leaveRoom cfg net s = Part000.irc_leaveRoom cfg net s /\
    IrcC.irc_disconnect cfg net s = Part000.irc_disconnect cfg net s /\
    (forall message,
        IrcC.irc_sendLobbyMessage cfg net message s
        = Part000.irc_sendLobbyMessage cfg net IrcC.MESSAGE_TOO_LONG
            message s).
Proof.
  intros cfg net s [Hrange Hleave]. repeat split.
  - intros roomNumber.
    unfold IrcC.irc_joinRoom, Part000.irc_joinRoom. now rewrite Hrange.
  - unfold IrcC.irc_leaveRoom, Part000.irc_leaveRoom. now rewrite Hleave.
Qed.

Lemma X24_revisions_agree_on_shared_functions_witness :
  agrees_with_irc_c sample_cfg /\
  IrcC.irc_joinRoom sample_cfg (constant_server sample_cfg 0 EmptyString)
    1000 initial_state
  = Part000.irc_joinRoom sample_cfg (constant_server sample_cfg 0 EmptyString)
      1000 initial_state.
Proof.
  assert (Hagree : agrees_with_irc_c sample_cfg) by (split; reflexivity).
  split; [exact Hagree|].
  apply (X24_revisions_agree_on_shared_functions sample_cfg
           (constant_server sample_cfg 0 EmptyString) initial_state Hagree).
Defined.

(** ** Creating a room in the earlier revision *)

Lemma IrcC_getAvailableRoom_at_first_free (cfg : Config) (net : Transport)
  (s : State) (k : nat) :
  (k < 1000)%nat ->
  scan_status cfg net s k = 0 ->
  (forall j, (j < k)%nat -> scan_status cfg net s j <> 0) ->
  IrcC.irc_getAvailableRoom cfg net s
  = (Z.of_nat k, scan_state cfg net s (S k)).
Proof.
  intros Hk Hfree Hused.
  destruct (IrcC_getAvailableRoom_smallest cfg net s)
    as [(_ & Hall & _) | (k' & Hk' & Hr & Hz & Hmin & Hs)].
  - exfalso. now apply (Hall k).
  - assert (k' = k) as ->.
    { destruct (Nat.lt_trichotomy k' k) as [Hlt | [Heq | Hgt]].
      - exfalso. now apply (Hused k').
      - exact Heq.
      - exfalso. now apply (Hmin k). }
    rewrite (surjective_pairing (IrcC.irc_getAvailableRoom cfg net s)).
    now rewrite Hr, Hs.
Qed.

(** X25. In the earlier revision, when room [k] is the first whose probe
    returns 0, the session is in no room and both sends succeed,
    [irc_createRoom] returns [k] after probing rooms 0 to [k], sending
    ["JOIN"] for the channel of room [k] and setting its topic to WAITING;
    [currentRoom] is still -1 afterwards. *)
Theorem X25_IrcC_createRoom_takes_first_free :
  forall (cfg : Config) (net : Transport) (s : State) (k : nat),
    let probed := scan_state cfg net s (S k) in
    let roomName := sprintf_ROOM_FORMAT cfg (Z.of_nat k) in
    let joinCommand := "JOIN " ++ roomName ++ CRLF in
    let topicCommand := "TOPIC " ++ roomName ++ " WAITING" ++ CRLF in
    let join := EvSend joinCommand (strlen joinCommand) in
    let topic := EvSend topicCommand (strlen topicCommand) in
    (k < 1000)%nat ->
    scan_status cfg net s k = 0 ->
    (forall j, (j < k)%nat -> scan_status cfg net s j <> 0) ->
    currentRoom s = -1 ->
    send_ret net (trace probed ++ [join])%list = NO_ERROR cfg ->
    send_ret net (trace probed ++ [join; topic])%list = NO_ERROR cfg ->
    IrcC.irc_createRoom cfg net s
    = (Z.of_nat k,
       {| currentRoom := -1;
          trace := (trace probed ++ [join; topic])%list |}).
Proof.
  intros cfg net s k probed roomName joinCommand topicCommand join topic
         Hk Hfree Hused Hnone Hjoin Htopic.
  unfold IrcC.irc_createRoom. rewrite bind_run.
  rewrite (IrcC_getAvailableRoom_at_first_free cfg net s k Hk Hfree Hused).
  cbn [fst snd]. fold probed.
  replace (Z.of_nat k =? -1) with false by (symmetry; apply Z.eqb_neq; lia).
  destruct (IrcC_scan_is_read_only cfg net s (S k)) as (events & _ & _ & Hroom).
  fold probed in Hroom.
  unfold bind, get_currentRoom, ret, network_send.
  rewrite Hroom, Hnone, Zeqb_same. cbn [negb].
  fold roomName. fold joinCommand. fold join.
  rewrite trace_log, Hjoin, Zeqb_same. cbn [negb].
  change ("TOPIC " ++ roomName ++ " " ++ "WAITING" ++ CRLF)
    with topicCommand.
  fold topic.
  rewrite !trace_log, <- app_assoc. cbn [app].
  rewrite Htopic, Zeqb_same. cbn [negb].
  unfold log. cbn [currentRoom trace].
  rewrite Hroom, Hnone, <- app_assoc. reflexivity.
Qed.

Lemma X25_IrcC_createRoom_takes_first_free_witness :
  fst (IrcC.irc_createRoom sample_cfg
         (reply_server sample_cfg 0 five_rooms_taken) initial_state) = 5 /\
  map payload
    (skipn 12 (trace (snd (IrcC.irc_createRoom sample_cfg
                             (reply_server sample_cfg 0 five_rooms_taken)
                             initial_state))))
  = [Some ("JOIN #cruce-game005" ++ CRLF);
     Some ("TOPIC #cruce-game005 WAITING" ++ CRLF)].
Proof.
  assert (Hk : (5 < 1000)%nat) by lia.
  assert (Hused : forall j, (j < 5)%nat ->
            scan_status sample_cfg
              (reply_server sample_cfg 0 five_rooms_taken) initial_state j
            <> 0).
  { intros j Hj.
    destruct j as [|[|[|[|[|j]]]]]; [| | | | |exfalso; lia];
      vm_compute; discriminate. }
  pose proof (X25_IrcC_createRoom_takes_first_free sample_cfg
                (reply_server sample_cfg 0 five_rooms_taken) initial_state 5
                Hk eq_refl Hused eq_refl eq_refl eq_refl) as Hrun.
  rewrite Hrun. split; reflexivity.
Defined.
